(** * Daily Diet API: the route handlers of [src/routes/users.ts] and
    [src/routes/meals.ts], embedded as functions over an explicit store.

    Conventions of the embedding.
    - A JavaScript value read from, or written to, a table cell or a request
      body is a [Js.value].  Numbers are [NaN] or an integer: every number a
      handler inspects is a 0/1 flag or a row count.
    - A handler is a computation in the monad [M]: it threads the tables, the
      log of the queries it issued and the reply headers, and it either yields
      a value or throws.  [try ... catch] is [tryCatch].
    - What the route files take from elsewhere (zod's e-mail and uuid
      patterns, the driver's rendering of COUNT, the uuid generator, the
      dialect's treatment of LIMIT on writes, the session middleware) is a
      field of the class [Platform]; every statement holds for all of them.
    - Console output and the [created_at] timestamps are left out: no handler
      reads them back.
    - The migration of [db/migrations] that adds [session_id] and
      [created_at] is embedded on a table given by its columns. *)

From Stdlib Require Import ZArith Lia Ascii String DecimalString DecimalPos.
From stdpp Require Import base list strings gmap.

Local Open Scope string_scope.
Local Open Scope list_scope.
Local Open Scope nat_scope.

(** ** JavaScript values *)

Module Js.

Inductive number :=
| NaN
| Num (z : Z).

Inductive value :=
| Undefined
| Null
| Bool (b : bool)
| Number (n : number)
| Str (s : string).

(** [a === b]: same type and same value; [NaN] differs from itself. *)
Definition strict_eq (a b : value) : bool :=
  match a, b with
  | Undefined, Undefined => true
  | Null, Null => true
  | Bool x, Bool y => Bool.eqb x y
  | Number (Num x), Number (Num y) => Z.eqb x y
  | Str x, Str y => String.eqb x y
  | _, _ => false
  end.

(** [!v] is [negb (truthy v)]. *)
Definition truthy (v : value) : bool :=
  match v with
  | Undefined | Null => false
  | Bool b => b
  | Number NaN => false
  | Number (Num z) => negb (Z.eqb z 0%Z)
  | Str s => negb (String.eqb s "")
  end.

(** The abstract operation ToString, on the values above.  Integers print
    in decimal (the exponent form of magnitudes from 10^21 on is not
    modelled). *)
Definition toString (v : value) : string :=
  match v with
  | Undefined => "undefined"
  | Null => "null"
  | Bool true => "true"
  | Bool false => "false"
  | Number NaN => "NaN"
  | Number (Num z) => NilZero.string_of_int (Z.to_int z)
  | Str s => s
  end.

(** White space skipped by [parseInt]; the ASCII part of the StrWhiteSpaceChar
    class (tab, line feed, vertical tab, form feed, carriage return,
    space). *)
Definition isWhite (c : ascii) : bool :=
  let n := N_of_ascii c in
  ((9 <=? n) && (n <=? 13) || (n =? 32))%N.

Fixpoint trimStart (s : string) : string :=
  match s with
  | String c s' => if isWhite c then trimStart s' else s
  | EmptyString => s
  end.

(** Value of a character as a digit: 0-9, then a-z and A-Z from ten on. *)
Definition digitVal (c : ascii) : option Z :=
  let n := Z.of_N (N_of_ascii c) in
  (if (48 <=? n) && (n <=? 57) then Some (n - 48)
   else if (97 <=? n) && (n <=? 122) then Some (n - 87)
   else if (65 <=? n) && (n <=? 90) then Some (n - 55)
   else None)%Z.

(** The longest prefix of digits below the radix, read as a numeral;
    [acc] is [None] until a first digit has been read. *)
Fixpoint digits (radix : Z) (s : string) (acc : option Z) : option Z :=
  match s with
  | String c s' =>
      match digitVal c with
      | Some d =>
          if (d <? radix)%Z
          then digits radix s' (Some (default 0 acc * radix + d)%Z)
          else acc
      | None => acc
      end
  | EmptyString => acc
  end.

Definition stripSign (s : string) : Z * string :=
  match s with
  | String "-" r => ((-1)%Z, r)
  | String "+" r => (1%Z, r)
  | _ => (1%Z, s)
  end.

Definition stripRadix (s : string) : Z * string :=
  match s with
  | String "0" (String "x" r) => (16%Z, r)
  | String "0" (String "X" r) => (16%Z, r)
  | _ => (10%Z, s)
  end.

(** [parseInt(v)] with no radix argument: ToString, skip white space, an
    optional sign, an optional [0x], then digits; no digit at all gives
    [NaN].  The result is the numeral's integer (exact below 2^53; the sign
    of a zero is not kept). *)
Definition parseInt (v : value) : number :=
  let (sign, s1) := stripSign (trimStart (toString v)) in
  let (radix, s2) := stripRadix s1 in
  match digits radix s2 None with
  | None => NaN
  | Some n => Num (sign * n)%Z
  end.

(** [JSON.parse(JSON.stringify(v))] on a cell value: [NaN] is written as
    [null]; every other value modelled here comes back as it was (an
    undefined property is dropped, and reads as undefined again). *)
Definition jsonRoundTrip (v : value) : value :=
  match v with
  | Number NaN => Null
  | _ => v
  end.

Definition one : value := Number (Num 1%Z).
Definition zero : value := Number (Num 0%Z).

End Js.

(** ** Rows of the two tables *)

(** The columns of [users] written by [POST /users] and the migration that
    adds [session_id]. *)
Record UserRow := mkUser {
  u_id : string;
  u_name : string;
  u_email : string;
  u_address : string;
  u_weight : Z;
  u_height : Z;
  session_id : string
}.

(** The columns of [meals] that the queries of the two route files name:
    [isOnTheDiet] is written and filtered on by the meal routes, [inDiet] and
    [dateAndHour] are selected by the metrics route. *)
Record MealRow := mkMeal {
  m_id : string;
  user_id : string;
  m_name : string;
  m_description : string;
  isOnTheDiet : Js.value;
  inDiet : Js.value;
  dateAndHour : Js.value
}.

(** ** The metrics computation ([GET /users/metrics], after the query) *)

Record Metrics := mkMetrics {
  totalNumberOfMeals : nat;
  totalNumberOfMealsInTheDiet : nat;
  totalNumberOfMealsOffTheDiet : nat;
  bestSequenceOfMealsWithinTheDiet : nat
}.

(** [item.inDiet === 1] and [item.inDiet === 0]. *)
Definition inDietIs1 (item : MealRow) : bool := Js.strict_eq (inDiet item) Js.one.
Definition inDietIs0 (item : MealRow) : bool := Js.strict_eq (inDiet item) Js.zero.

(** The pair of loop variables. *)
Record Streak := mkStreak { currentStreak : nat; maxStreak : nat }.

(** One iteration of [for (const meal of meals)]. *)
Definition streakStep (s : Streak) (meal : MealRow) : Streak :=
  if inDietIs1 meal
  then mkStreak (S (currentStreak s)) (maxStreak s)
  else mkStreak 0 (if (maxStreak s <? currentStreak s)%nat
                   then currentStreak s else maxStreak s).

Definition streakLoop (s : Streak) (meals : list MealRow) : Streak :=
  fold_left streakStep meals s.

(** The [if (currentStreak > maxStreak)] after the loop. *)
Definition streakFinish (s : Streak) : nat :=
  if (maxStreak s <? currentStreak s)%nat
  then currentStreak s else maxStreak s.

Definition bestStreak (meals : list MealRow) : nat :=
  streakFinish (streakLoop (mkStreak 0 0) meals).

(** Lines 85-116 of [users.ts]: the object the handler returns. *)
Definition computeMetrics (meals : list MealRow) : Metrics :=
  {| totalNumberOfMeals := length meals;
     totalNumberOfMealsInTheDiet := length (List.filter inDietIs1 meals);
     totalNumberOfMealsOffTheDiet := length (List.filter inDietIs0 meals);
     bestSequenceOfMealsWithinTheDiet := bestStreak meals |}.

(** The loop with the reconciliation left out: what the handler would return
    without the [if] after the loop. *)
Definition bestStreakNoFinish (meals : list MealRow) : nat :=
  maxStreak (streakLoop (mkStreak 0 0) meals).

(** *** What "longest contiguous run" means

    [run fl i k]: the [k] flags starting at position [i] exist and are all
    true.  [longestRun fl n]: some run has length [n], and none is longer. *)
Definition run (fl : list bool) (i k : nat) : Prop :=
  ∀ j, i ≤ j < i + k → fl !! j = Some true.

Definition longestRun (fl : list bool) (n : nat) : Prop :=
  (∃ i, run fl i n) ∧ ∀ i k, run fl i k → k ≤ n.

(** A meal row that carries the given [inDiet] cell and nothing else of
    interest. *)
Definition mealWithFlag (v : Js.value) : MealRow :=
  mkMeal "" "" "" "" Js.Undefined v Js.Undefined.

(** ** Requests and replies *)

(** What a handler reads from a request: the [sessionId] cookie, the [:id]
    route parameter and the body, a JSON object. *)
Record Request := mkRequest {
  cookies_sessionId : option string;
  params_id : Js.value;
  body : gmap string Js.value
}.

(** The payloads the handlers send or return. *)
Inductive Body :=
| BMessage (text : string)        (* { message: text } *)
| BError (text : string)          (* { error: text } *)
| BText (text : string)           (* a bare string *)
| BMetrics (metrics : Metrics)    (* the metrics object *)
| BMeal (meal : MealRow)          (* { meal } *)
| BMealsSummary (registradas dentroDaDieta foraDaDieta : Js.number)
| BUsersSummary (cadastrados : Js.number).

(** A handler ends with [response.status(n).send(b)] or with [return b]. *)
Inductive Outcome :=
| Sent (status : nat) (payload : Body)
| Returned (payload : Body).

Inductive Exn :=
| ReferenceError (identifier : string)
| ZodError
| KnexError (text : string).

(** ** The store and the handler monad *)

Record Store := mkStore {
  tbl_users : list UserRow;
  tbl_meals : list MealRow
}.

(** The calls made on [knex], in the order they are awaited. *)
Inductive Query :=
| SelectUsersBySession (sid : string)
| SelectUserByEmail (email : string)
| InsertUser (row : UserRow)
| CountUsers
| SelectMealsOfSession (sid : string)
| SelectMeal (id uid : string)
| DeleteMeal (id uid : string)
| UpdateMeal (id uid : string)
| CountMeals (uid : string) (onTheDiet : option bool).

(** The tables, the queries issued so far (oldest first), the cookie set on
    the reply, and how many uuids have been drawn. *)
Record World := mkWorld {
  store : Store;
  issued : list Query;
  replyCookie : option string;
  drawn : nat
}.

Inductive Result (A : Type) :=
| Val (a : A)
| Thrown (e : Exn).
Arguments Val {A} a.
Arguments Thrown {A} e.

Definition M (A : Type) : Type := World → World * Result A.

Definition ret {A} (a : A) : M A := λ w, (w, Val a).

Definition bind {A B} (c : M A) (k : A → M B) : M B :=
  λ w, match c w with
       | (w', Val a) => k a w'
       | (w', Thrown e) => (w', Thrown e)
       end.

Definition throw {A} (e : Exn) : M A := λ w, (w, Thrown e).

(** [try { c } catch (error) { h error }]: what [c] did to the world stays. *)
Definition tryCatch {A} (c : M A) (h : Exn → M A) : M A :=
  λ w, match c w with
       | (w', Val a) => (w', Val a)
       | (w', Thrown e) => h e w'
       end.

Declare Scope handler_scope.
Delimit Scope handler_scope with handler.
Notation "x <- c ;; k" := (bind c (λ x, k))
  (at level 100, c at next level, right associativity) : handler_scope.
Notation "c ;;; k" := (bind c (λ _, k))
  (at level 100, right associativity) : handler_scope.
Local Open Scope handler_scope.

Definition getStore : M Store := λ w, (w, Val (store w)).

Definition putStore (s : Store) : M unit :=
  λ w, (mkWorld s (issued w) (replyCookie w) (drawn w), Val tt).

Definition logQuery (q : Query) : M unit :=
  λ w, (mkWorld (store w) (issued w ++ [q]) (replyCookie w) (drawn w), Val tt).

(** [response.cookie('sessionId', v, ...)]. *)
Definition setReplyCookie (v : string) : M unit :=
  λ w, (mkWorld (store w) (issued w) (Some v) (drawn w), Val tt).

(** [response.status(n).send(b)] where [response] is the handler's second
    parameter. *)
Definition send (status : nat) (b : Body) : M Outcome := ret (Sent status b).

(** [response.status(n).send(b)] in a handler declared [async (request) =>]:
    no [response] is in scope, in the handler or in the module, so evaluating
    the identifier throws. *)
Definition sendUnbound (status : nat) (b : Body) : M Outcome :=
  throw (ReferenceError "response").

(** ** What the repository takes from outside *)

Class Platform := {
  (** zod's [.email()] and [.uuid()] patterns *)
  isEmail : string → bool;
  isUuid : string → bool;
  (** how the driver renders [COUNT(...)] of [n] rows: a number, or text *)
  countRepr : nat → Js.value;
  (** the [k]-th value returned by [randomUUID()] *)
  randomUUIDAt : nat → string;
  (** whether the LIMIT 1 left by [.first()] restricts a following
      [.delete()] or [.update()] to one row *)
  writesHonourLimit : bool;
  (** the [preHandler] of [src/middleware/check-session-id-exists.ts]:
      [Some r] when it replies [r] itself, [None] when the handler runs *)
  checkSessionIdExists : Request → option Outcome
}.

Section Handlers.

Context `{Platform}.

Definition randomUUID : M string :=
  λ w, (mkWorld (store w) (issued w) (replyCookie w) (S (drawn w)),
        Val (randomUUIDAt (drawn w))).

(** A route registered with [{ preHandler: [checkSessionIdExists] }]. *)
Definition withPreHandler (handler : Request → M Outcome) (req : Request)
  : M Outcome :=
  match checkSessionIdExists req with
  | Some r => ret r
  | None => handler req
  end.

(** *** Queries *)

(** knex refuses to compile a [where] whose value is [undefined]. *)
Definition whereValue (v : option string) : M string :=
  match v with
  | Some s => ret s
  | None => throw (KnexError "Undefined binding(s) detected when compiling query")
  end.

Definition hasSession (sid : string) (u : UserRow) : bool :=
  String.eqb (session_id u) sid.

(** [knex('users').where('session_id', sessionId).select('id')] *)
Definition usersBySession (sessionId : option string) : M (list UserRow) :=
  sid <- whereValue sessionId ;;
  logQuery (SelectUsersBySession sid) ;;;
  s <- getStore ;;
  ret (List.filter (hasSession sid) (tbl_users s)).

(** [knex('meals').select(...).innerJoin('users', 'users.id',
    'meals.user_id').where('session_id', sessionId)]: one row per pair of a
    meal and a user of that session whose id is the meal's [user_id], in
    table order. *)
Definition joinMealsUsers (s : Store) (sid : string) : list MealRow :=
  flat_map
    (λ meal, map (λ _, meal)
               (List.filter (λ u, String.eqb (u_id u) (user_id meal) && hasSession sid u)
                  (tbl_users s)))
    (tbl_meals s).

Definition mealsOfSession (sessionId : option string) : M (list MealRow) :=
  sid <- whereValue sessionId ;;
  logQuery (SelectMealsOfSession sid) ;;;
  s <- getStore ;;
  ret (joinMealsUsers s sid).

(** [.where('id', id).andWhere('user_id', userId)] on [meals]. *)
Definition mealMatches (id uid : string) (meal : MealRow) : bool :=
  String.eqb (m_id meal) id && String.eqb (user_id meal) uid.

(** [... .first()] *)
Definition selectMeal (id uid : string) : M (option MealRow) :=
  logQuery (SelectMeal id uid) ;;;
  s <- getStore ;;
  ret (head (List.filter (mealMatches id uid) (tbl_meals s))).

(** Rewrite the rows selected by [sel]: [change] gives the new row, or
    [None] to drop it.  With [onlyFirst], the first selected row alone. *)
Fixpoint writeRows (sel : MealRow → bool) (change : MealRow → option MealRow)
    (onlyFirst : bool) (rows : list MealRow) : list MealRow * nat :=
  match rows with
  | [] => ([], 0)
  | row :: rest =>
      if sel row then
        let (rest', n) :=
          if onlyFirst then (rest, 0) else writeRows sel change onlyFirst rest in
        (match change row with Some row' => row' :: rest' | None => rest' end, S n)
      else
        let (rest', n) := writeRows sel change onlyFirst rest in
        (row :: rest', n)
  end.

(** [... .first().delete()]: the number of rows deleted. *)
Definition deleteMealRows (id uid : string) : M nat :=
  logQuery (DeleteMeal id uid) ;;;
  s <- getStore ;;
  let (rows, n) :=
    writeRows (mealMatches id uid) (λ _, None) writesHonourLimit (tbl_meals s) in
  putStore (mkStore (tbl_users s) rows) ;;;
  ret n.

(** [... .first().update({ name, description, isOnTheDiet })]: the number
    of rows updated. *)
Definition updateMealRows (id uid : string) (name description : string)
    (onTheDiet : bool) : M nat :=
  logQuery (UpdateMeal id uid) ;;;
  s <- getStore ;;
  let change row :=
    Some (mkMeal (m_id row) (user_id row) name description
            (Js.Bool onTheDiet) (inDiet row) (dateAndHour row)) in
  let (rows, n) :=
    writeRows (mealMatches id uid) change writesHonourLimit (tbl_meals s) in
  putStore (mkStore (tbl_users s) rows) ;;;
  ret n.

(** A cell of a boolean column compared with a bound [true] or [false]:
    the cell holds the boolean, or its 1/0 encoding. *)
Definition cellIsBool (b : bool) (cell : Js.value) : bool :=
  Js.strict_eq cell (Js.Bool b)
  || Js.strict_eq cell (if b then Js.one else Js.zero).

Definition mealCounted (uid : string) (onTheDiet : option bool)
    (meal : MealRow) : bool :=
  String.eqb (user_id meal) uid
  && match onTheDiet with
     | Some b => cellIsBool b (isOnTheDiet meal)
     | None => true
     end.

(** [knex('meals').count('id', { as: ... }).where('user_id', userId)], with
    the filter on [isOnTheDiet] when there is one: the value under the alias
    in the single row of the result. *)
Definition countMeals (uid : string) (onTheDiet : option bool) : M Js.value :=
  logQuery (CountMeals uid onTheDiet) ;;;
  s <- getStore ;;
  ret (countRepr (length (List.filter (mealCounted uid onTheDiet) (tbl_meals s)))).

(** [knex('users').count('id as Total de usuários')] *)
Definition countUsers : M Js.value :=
  logQuery CountUsers ;;;
  s <- getStore ;;
  ret (countRepr (length (tbl_users s))).

Definition insertUser (row : UserRow) : M unit :=
  logQuery (InsertUser row) ;;;
  s <- getStore ;;
  putStore (mkStore (tbl_users s ++ [row]) (tbl_meals s)).

End Handlers.

(** ** Validation with zod *)

Section Validation.

Context `{Platform}.

(** [z.string()], [z.number()] and [z.boolean()] on a property of the parsed
    object; a missing property or one of another type makes [parse] throw. *)
Definition zString (v : option Js.value) : M string :=
  match v with
  | Some (Js.Str s) => ret s
  | _ => throw ZodError
  end.

Definition zNumber (v : option Js.value) : M Z :=
  match v with
  | Some (Js.Number (Js.Num z)) => ret z
  | _ => throw ZodError
  end.

Definition zBoolean (v : option Js.value) : M bool :=
  match v with
  | Some (Js.Bool b) => ret b
  | _ => throw ZodError
  end.

Definition zEmail (v : option Js.value) : M string :=
  s <- zString v ;;
  if isEmail s then ret s else throw ZodError.

Definition zUuid (v : option Js.value) : M string :=
  s <- zString v ;;
  if isUuid s then ret s else throw ZodError.

Record UserBody := mkUserBody {
  b_name : string;
  b_email : string;
  b_address : string;
  b_weight : Z;
  b_height : Z
}.

(** [createUserBodySchema.parse(request.body)] *)
Definition parseUserBody (b : gmap string Js.value) : M UserBody :=
  name <- zString (b !! "name") ;;
  email <- zEmail (b !! "email") ;;
  address <- zString (b !! "address") ;;
  weight <- zNumber (b !! "weight") ;;
  height <- zNumber (b !! "height") ;;
  ret (mkUserBody name email address weight height).

Record MealBody := mkMealBody {
  b_mealName : string;
  b_description : string;
  b_isOnTheDiet : bool
}.

(** [editMealBodySchema.parse(request.body)] *)
Definition parseMealBody (b : gmap string Js.value) : M MealBody :=
  name <- zString (b !! "name") ;;
  description <- zString (b !! "description") ;;
  onTheDiet <- zBoolean (b !! "isOnTheDiet") ;;
  ret (mkMealBody name description onTheDiet).

(** [getMealParamsSchema.parse(request.params)], then [.id] *)
Definition parseMealParams (req : Request) : M string :=
  zUuid (Some (params_id req)).

End Validation.

(** ** The handlers of [users.ts] *)

Section UsersRoutes.

Context `{Platform}.

Definition internalError : Body := BError "Erro interno do servidor".
Definition userNotFound : Body := BError "Usuário não encontrado".
Definition noMealsForMetrics : Body :=
  BMessage "Você não tem nenhuma refeição cadastrada para obter métricas.".

(** [GET /users/metrics]; this handler has no [try]. *)
Definition getMetrics (req : Request) : M Outcome :=
  meals <- mealsOfSession (cookies_sessionId req) ;;
  if length meals =? 0
  then send 404 noMealsForMetrics
  else ret (Returned (BMetrics (computeMetrics meals))).

(** [!sessionId] on the cookie. *)
Definition cookieMissing (c : option string) : bool :=
  match c with
  | Some s => negb (Js.truthy (Js.Str s))
  | None => true
  end.

(** Lines 148-157: the cookie's token, or a new one that is also set on
    the reply. *)
Definition sessionForRegistration (req : Request) : M string :=
  if cookieMissing (cookies_sessionId req)
  then sid <- randomUUID ;;
       setReplyCookie sid ;;;
       ret sid
  else ret (default "" (cookies_sessionId req)).

(** [POST /users] *)
Definition createUser (req : Request) : M Outcome :=
  tryCatch
    (b <- parseUserBody (body req) ;;
     logQuery (SelectUserByEmail (b_email b)) ;;;
     s <- getStore ;;
     match head (List.filter (λ u, String.eqb (u_email u) (b_email b)) (tbl_users s)) with
     | Some _ => send 400 (BError "Este email já está vinculado à um usuário")
     | None =>
         sessionId <- sessionForRegistration req ;;
         id <- randomUUID ;;
         insertUser (mkUser id (b_name b) (b_email b) (b_address b)
                       (b_weight b) (b_height b) sessionId) ;;;
         send 201 (BMessage "Usuário cadastrado com sucesso")
     end)
    (λ _, send 500 internalError).

(** [GET /users/summary] *)
Definition usersSummary (req : Request) : M Outcome :=
  tryCatch
    (found <- usersBySession (cookies_sessionId req) ;;
     match head found with
     | None => send 404 userNotFound
     | Some _ =>
         totalUsers <- countUsers ;;
         ret (Returned (BUsersSummary (Js.parseInt totalUsers)))
     end)
    (λ _, send 500 internalError).

Definition GET_users_metrics : Request → M Outcome := withPreHandler getMetrics.
Definition POST_users : Request → M Outcome := createUser.
Definition GET_users_summary : Request → M Outcome := withPreHandler usersSummary.

End UsersRoutes.

(** ** The handlers of [meals.ts] *)

Section MealsRoutes.

Context `{Platform}.

Definition mealNotFound : Body := BError "Refeição não encontrada".

(** [GET /meals/:id] *)
Definition getMeal (req : Request) : M Outcome :=
  tryCatch
    (id <- parseMealParams req ;;
     found <- usersBySession (cookies_sessionId req) ;;
     match head found with
     | None => send 404 userNotFound
     | Some user =>
         meal <- selectMeal id (u_id user) ;;
         match meal with
         | None => send 404 mealNotFound
         | Some m => ret (Returned (BMeal m))
         end
     end)
    (λ _, send 500 internalError).

(** [DELETE /meals/:id] *)
Definition deleteMeal (req : Request) : M Outcome :=
  tryCatch
    (id <- parseMealParams req ;;
     found <- usersBySession (cookies_sessionId req) ;;
     match head found with
     | None => send 404 userNotFound
     | Some user =>
         n <- deleteMealRows id (u_id user) ;;
         if n =? 0
         then send 401 (BError "Unauthorized")
         else send 202 (BText "Refeição deletada com sucesso")
     end)
    (λ _, send 500 internalError).

(** [PUT /meals/:id] *)
Definition editMeal (req : Request) : M Outcome :=
  tryCatch
    (id <- parseMealParams req ;;
     found <- usersBySession (cookies_sessionId req) ;;
     match head found with
     | None => send 404 userNotFound
     | Some user =>
         b <- parseMealBody (body req) ;;
         n <- updateMealRows id (u_id user) (b_mealName b) (b_description b)
                (b_isOnTheDiet b) ;;
         if n =? 0
         then send 401 mealNotFound
         else send 202 (BMessage "Refeição editada com sucesso")
     end)
    (λ _, send 500 internalError).

(** [GET /meals/summary].  The handler is [async (request) => ...]: both
    places that reply through [response] find no such binding. *)
Definition mealsSummary (req : Request) : M Outcome :=
  tryCatch
    (found <- usersBySession (cookies_sessionId req) ;;
     match head found with
     | None => sendUnbound 404 userNotFound
     | Some user =>
         count <- countMeals (u_id user) None ;;
         refDieta <- countMeals (u_id user) (Some true) ;;
         refForaDieta <- countMeals (u_id user) (Some false) ;;
         ret (Returned (BMealsSummary
                          (Js.parseInt (Js.jsonRoundTrip count))
                          (Js.parseInt (Js.jsonRoundTrip refDieta))
                          (Js.parseInt (Js.jsonRoundTrip refForaDieta))))
     end)
    (λ _, sendUnbound 500 internalError).

Definition GET_meals_id : Request → M Outcome := withPreHandler getMeal.
Definition DELETE_meals_id : Request → M Outcome := withPreHandler deleteMeal.
Definition PUT_meals_id : Request → M Outcome := withPreHandler editMeal.
Definition GET_meals_summary : Request → M Outcome := withPreHandler mealsSummary.

End MealsRoutes.

(** ** A concrete platform, for running the handlers *)

(** Modelled from the spec: the session middleware
    ([src/middleware/check-session-id-exists.ts]), which "rejects requests
    lacking a valid token": a request without the cookie is answered by the
    middleware, any other reaches the handler. *)
Definition rejectWithoutCookie (req : Request) : option Outcome :=
  match cookies_sessionId req with
  | Some _ => None
  | None => Some (Sent 401 (BError "Unauthorized."))
  end.

(** A driver that returns counts as numbers, or as whatever text [text]
    gives; uuids are numbered; a string with an [@] passes for an e-mail. *)
Definition hasAt (s : string) : bool :=
  existsb (λ c, Ascii.eqb c "@") (list_ascii_of_string s).

Definition uuidNumber (k : nat) : string :=
  "uuid-" +:+ NilZero.string_of_int (Z.to_int (Z.of_nat k)).

Definition platformWith (repr : nat → Js.value) (limit : bool) : Platform :=
  {| isEmail := hasAt;
     isUuid := λ _, true;
     countRepr := repr;
     randomUUIDAt := uuidNumber;
     writesHonourLimit := limit;
     checkSessionIdExists := rejectWithoutCookie |}.

Definition numericCounts (n : nat) : Js.value := Js.Number (Js.Num (Z.of_nat n)).
Definition textCounts (n : nat) : Js.value :=
  Js.Str (NilZero.string_of_int (Z.to_int (Z.of_nat n))).

Definition emptyWorld : World := mkWorld (mkStore [] []) [] None 0.
Definition worldOf (us : list UserRow) (ms : list MealRow) : World :=
  mkWorld (mkStore us ms) [] None 0.

Definition ana : UserRow := mkUser "u1" "Ana" "ana@example.com" "Rua A" 60 165 "s1".
Definition bia : UserRow := mkUser "u2" "Bia" "bia@example.com" "Rua B" 70 170 "s2".

Definition salada : MealRow :=
  mkMeal "m1" "u1" "Salada" "Com frango" (Js.Bool true) Js.one Js.Null.
Definition pizza : MealRow :=
  mkMeal "m2" "u2" "Pizza" "Quatro queijos" (Js.Bool false) Js.zero Js.Null.

Definition withCookie (sid : string) : Request :=
  mkRequest (Some sid) Js.Undefined ∅.

(** ** Vocabulary of the statements *)

(** The world after a handler has issued the queries [qs] and changed
    nothing else. *)
Definition afterQueries (w : World) (qs : list Query) : World :=
  mkWorld (store w) (issued w ++ qs) (replyCookie w) (drawn w).

(** The user a meal route resolves from the session cookie: the first row of
    [users] with that [session_id], if there is one. *)
Definition resolvedUser (w : World) (req : Request) : option UserRow :=
  match cookies_sessionId req with
  | Some sid => head (List.filter (hasSession sid) (tbl_users (store w)))
  | None => None
  end.

(** The meals that do not belong to [owner]; all of them when there is no
    owner. *)
Definition notOwnedBy (owner : option UserRow) (meal : MealRow) : bool :=
  match owner with
  | Some user => negb (String.eqb (user_id meal) (u_id user))
  | None => true
  end.

Definition mealsOfOthers (owner : option UserRow) (w : World) : list MealRow :=
  List.filter (notOwnedBy owner) (tbl_meals (store w)).

(** The meal in a handler's answer, when it carries one. *)
Definition mealShown (r : Result Outcome) : option MealRow :=
  match r with
  | Val (Returned (BMeal meal)) | Val (Sent _ (BMeal meal)) => Some meal
  | _ => None
  end.

(** A handler keeps to the owner's meals on [req] and [w]: the meals of
    everybody else are afterwards what they were, and a meal shown in the
    answer is the owner's. *)
Definition keepsToOwner (handler : Request → M Outcome) (req : Request)
    (w : World) : Prop :=
  let owner := resolvedUser w req in
  mealsOfOthers owner (handler req w).1 = mealsOfOthers owner w
  ∧ match mealShown (handler req w).2 with
    | Some meal => notOwnedBy owner meal = false
    | None => True
    end.

(** The integer a string of decimal digits denotes, most significant digit
    first, continuing from [acc]. *)
Fixpoint numeralValue (d : Decimal.uint) (acc : Z) : Z :=
  match d with
  | Decimal.Nil => acc
  | Decimal.D0 l => numeralValue l (acc * 10 + 0)
  | Decimal.D1 l => numeralValue l (acc * 10 + 1)
  | Decimal.D2 l => numeralValue l (acc * 10 + 2)
  | Decimal.D3 l => numeralValue l (acc * 10 + 3)
  | Decimal.D4 l => numeralValue l (acc * 10 + 4)
  | Decimal.D5 l => numeralValue l (acc * 10 + 5)
  | Decimal.D6 l => numeralValue l (acc * 10 + 6)
  | Decimal.D7 l => numeralValue l (acc * 10 + 7)
  | Decimal.D8 l => numeralValue l (acc * 10 + 8)
  | Decimal.D9 l => numeralValue l (acc * 10 + 9)
  end%Z.

(** The session token [POST /users] stores with the new user. *)
Definition tokenStored `{Platform} (req : Request) (w : World) : string :=
  if cookieMissing (cookies_sessionId req)
  then randomUUIDAt (drawn w)
  else default "" (cookies_sessionId req).

Definition sessionTokens (w : World) : list string :=
  map session_id (tbl_users (store w)).

(** A registration body for a user not yet in the example store. *)
Definition newcomer : gmap string Js.value :=
  {[ "name" := Js.Str "Caio"; "email" := Js.Str "caio@example.com";
     "address" := Js.Str "Rua C"; "weight" := Js.Number (Js.Num 80);
     "height" := Js.Number (Js.Num 180) ]}.

(** ** The other handlers of [users.ts] and [meals.ts] *)

(** The queries of these handlers are not entered in [issued]; no statement
    about them reads the log. *)

(** The payloads that carry rows, and the answer of a handler that may
    return one. *)
Inductive Listing :=
| LUsers (found : list UserRow)    (* { users } *)
| LUser (user : UserRow)           (* { user } *)
| LMeals (found : list MealRow).   (* { meals } *)

Inductive Answer :=
| Plain (o : Outcome)
| Listed (l : Listing).

(** The columns of [meals] that [POST /meals] does not write take the
    table's defaults, whatever they are. *)
Class MealsTable := {
  inDietDefault : Js.value;
  dateAndHourDefault : Js.value
}.

Section OtherRoutes.

Context `{Platform} `{MealsTable}.

Definition plain (c : M Outcome) : M Answer :=
  o <- c ;; ret (Plain o).

(** A route that returns rows, registered with the session [preHandler]. *)
Definition withPreHandlerListing (handler : Request → M Answer) (req : Request)
  : M Answer :=
  match checkSessionIdExists req with
  | Some r => ret (Plain r)
  | None => handler req
  end.

(** [request.params.id] bound in a [where]: knex refuses [undefined]. *)
Definition whereParam (v : Js.value) : M Js.value :=
  match v with
  | Js.Undefined =>
      throw (KnexError "Undefined binding(s) detected when compiling query")
  | _ => ret v
  end.

(** A text cell against a bound value.  A route parameter is a string; for
    a value of another kind no row is taken to match. *)
Definition cellIs (cell : string) (v : Js.value) : bool :=
  Js.strict_eq (Js.Str cell) v.

(** [.where('session_id', sessionId).where('id', id)] on [users]. *)
Definition userMatches (sid : string) (id : Js.value) (u : UserRow) : bool :=
  hasSession sid u && cellIs (u_id u) id.

Definition userNotFoundMessage : Body := BMessage "Usuário não encontrado".

(** [GET /users].  The handler is [async (request) => ...]: its [catch]
    replies through a [response] that is not bound. *)
Definition listUsers (req : Request) : M Answer :=
  tryCatch
    (found <- usersBySession (cookies_sessionId req) ;;
     ret (Listed (LUsers found)))
    (λ _, plain (sendUnbound 500 internalError)).

(** [GET /users/:id] *)
Definition getUser (req : Request) : M Answer :=
  tryCatch
    (sid <- whereValue (cookies_sessionId req) ;;
     id <- whereParam (params_id req) ;;
     s <- getStore ;;
     match head (List.filter (userMatches sid id) (tbl_users s)) with
     | None => plain (send 404 userNotFoundMessage)
     | Some user => ret (Listed (LUser user))
     end)
    (λ _, plain (send 500 internalError)).

(** [.update({ name, email, address, weight, height })] on one row. *)
Definition withBody (b : UserBody) (u : UserRow) : UserRow :=
  mkUser (u_id u) (b_name b) (b_email b) (b_address b) (b_weight b) (b_height b)
    (session_id u).

(** [knex('users').where(...).where(...).update(...)]: the number of rows
    updated. *)
Definition updateUserRows (sid : string) (id : Js.value) (b : UserBody) : M nat :=
  s <- getStore ;;
  putStore (mkStore
              (map (λ u, if userMatches sid id u then withBody b u else u)
                 (tbl_users s))
              (tbl_meals s)) ;;;
  ret (length (List.filter (userMatches sid id) (tbl_users s))).

(** [knex('users').where(...).where(...).del()]: the number of rows
    deleted. *)
Definition deleteUserRows (sid : string) (id : Js.value) : M nat :=
  s <- getStore ;;
  putStore (mkStore
              (List.filter (λ u, negb (userMatches sid id u)) (tbl_users s))
              (tbl_meals s)) ;;;
  ret (length (List.filter (userMatches sid id) (tbl_users s))).

(** [PUT /users/:id] *)
Definition updateUser (req : Request) : M Outcome :=
  tryCatch
    (b <- parseUserBody (body req) ;;
     sid <- whereValue (cookies_sessionId req) ;;
     id <- whereParam (params_id req) ;;
     updatedUser <- updateUserRows sid id b ;;
     if updatedUser =? 0
     then send 404 userNotFoundMessage
     else send 200 (BMessage "Usuário atualizado com sucesso"))
    (λ _, send 500 internalError).

(** [DELETE /users/:id] *)
Definition deleteUser (req : Request) : M Outcome :=
  tryCatch
    (sid <- whereValue (cookies_sessionId req) ;;
     id <- whereParam (params_id req) ;;
     deletedUser <- deleteUserRows sid id ;;
     if deletedUser =? 0
     then send 404 userNotFoundMessage
     else send 200 (BMessage "Usuário excluído com sucesso"))
    (λ _, send 500 internalError).

(** [knex('meals').insert({ id, user_id, name, description, isOnTheDiet })] *)
Definition insertMeal (row : MealRow) : M unit :=
  s <- getStore ;;
  putStore (mkStore (tbl_users s) (tbl_meals s ++ [row])).

(** [POST /meals] *)
Definition createMeal (req : Request) : M Outcome :=
  tryCatch
    (found <- usersBySession (cookies_sessionId req) ;;
     match head found with
     | None => send 404 userNotFound
     | Some user =>
         b <- parseMealBody (body req) ;;
         id <- randomUUID ;;
         insertMeal (mkMeal id (u_id user) (b_mealName b) (b_description b)
                       (Js.Bool (b_isOnTheDiet b)) inDietDefault
                       dateAndHourDefault) ;;;
         send 201 (BText "Refeição criada com sucesso")
     end)
    (λ _, send 500 internalError).

(** [knex('meals').where('user_id', userId).select()] *)
Definition mealsOfUser (uid : string) (s : Store) : list MealRow :=
  List.filter (λ meal, String.eqb (user_id meal) uid) (tbl_meals s).

(** [GET /meals].  The handler is [async (request) => ...]: both replies
    through [response] find no such binding. *)
Definition listMeals (req : Request) : M Answer :=
  tryCatch
    (found <- usersBySession (cookies_sessionId req) ;;
     match head found with
     | None => plain (sendUnbound 404 userNotFound)
     | Some user =>
         s <- getStore ;;
         ret (Listed (LMeals (mealsOfUser (u_id user) s)))
     end)
    (λ _, plain (sendUnbound 500 internalError)).

Definition GET_users : Request → M Answer := withPreHandlerListing listUsers.
Definition GET_users_id : Request → M Answer := withPreHandlerListing getUser.
Definition PUT_users_id : Request → M Outcome := withPreHandler updateUser.
Definition DELETE_users_id : Request → M Outcome := withPreHandler deleteUser.
Definition POST_meals : Request → M Outcome := withPreHandler createMeal.
Definition GET_meals : Request → M Answer := withPreHandlerListing listMeals.

End OtherRoutes.

(** The columns that [POST /meals] leaves out read as [null]. *)
Definition nullDefaults : MealsTable :=
  {| inDietDefault := Js.Null; dateAndHourDefault := Js.Null |}.

(** ** The migration that adds [session_id] and [created_at] to [users] *)

Module Migration.

Inductive ColumnType :=
| Uuid
| Timestamp (precision : nat) (useTz : bool).

(** [knex.fn.now(6)] *)
Inductive DefaultValue :=
| Now (precision : nat).

Record Column := mkColumn {
  c_type : ColumnType;
  c_after : option string;
  c_indexed : bool;
  c_default : option DefaultValue;
  c_notNullable : bool
}.

(** [table.uuid('session_id').after('height').index()] *)
Definition sessionIdColumn : Column :=
  mkColumn Uuid (Some "height") true None false.

(** [table.timestamp('created_at', { precision: 6, useTz: true })
    .defaultTo(knex.fn.now(6)).after('session_id').notNullable()] *)
Definition createdAtColumn : Column :=
  mkColumn (Timestamp 6 true) (Some "session_id") false (Some (Now 6)) true.

(** A table is its columns by name (their order is not kept).

    [up]: the [alterTable] that adds the two columns; it fails, and adds
    nothing, when the table already has one of them. *)
Definition up (users : gmap string Column) : option (gmap string Column) :=
  match users !! "session_id", users !! "created_at" with
  | None, None =>
      Some (<["created_at" := createdAtColumn]>
              (<["session_id" := sessionIdColumn]> users))
  | _, _ => None
  end.

(** [down]: the [alterTable] that drops them; it fails when one of them is
    not there. *)
Definition down (users : gmap string Column) : option (gmap string Column) :=
  match users !! "session_id", users !! "created_at" with
  | Some _, Some _ => Some (delete "created_at" (delete "session_id" users))
  | _, _ => None
  end.

End Migration.

(** ** Vocabulary of the further statements *)

Definition userIds (w : World) : list string := map u_id (tbl_users (store w)).
Definition userEmails (w : World) : list string := map u_email (tbl_users (store w)).
Definition mealIds (w : World) : list string := map m_id (tbl_meals (store w)).

(** The [isOnTheDiet] cell holds a JavaScript boolean. *)
Definition flagIsBoolean (meal : MealRow) : Prop :=
  ∃ b, isOnTheDiet meal = Js.Bool b.

(** The number of meals a count query of [GET /meals/summary] sees. *)
Definition mealCount (uid : string) (flag : option bool) (w : World) : nat :=
  length (List.filter (mealCounted uid flag) (tbl_meals (store w))).

(** A body for [POST /meals] and [PUT /meals/:id]. *)
Definition mealBody (name description : string) (onTheDiet : bool)
  : gmap string Js.value :=
  {[ "name" := Js.Str name; "description" := Js.Str description;
     "isOnTheDiet" := Js.Bool onTheDiet ]}.

(** A body for [POST /users] and [PUT /users/:id]. *)
Definition userBody (name email address : string) (weight height : Z)
  : gmap string Js.value :=
  {[ "name" := Js.Str name; "email" := Js.Str email;
     "address" := Js.Str address; "weight" := Js.Number (Js.Num weight);
     "height" := Js.Number (Js.Num height) ]}.

(** A handler has read the store and written nothing: the tables, the reply
    cookie and the uuid counter are what they were. *)
Definition onlyRead (w w' : World) : Prop :=
  store w' = store w ∧ replyCookie w' = replyCookie w ∧ drawn w' = drawn w.

(** The row [POST /users] inserts for the parsed body [b]: when the request
    has no usable cookie the first uuid drawn is the session token and the
    second the id; otherwise the only uuid drawn is the id. *)
Definition newUserRow `{Platform} (req : Request) (w : World) (b : UserBody)
  : UserRow :=
  mkUser
    (randomUUIDAt (if cookieMissing (cookies_sessionId req)
                   then S (drawn w) else drawn w))
    (b_name b) (b_email b) (b_address b) (b_weight b) (b_height b)
    (tokenStored req w).

(** The rows of [users] that a [PUT] or [DELETE /users/:id] request aims at:
    those with the cookie's [session_id] and the parameter's [id]. *)
Definition userTargeted (req : Request) (u : UserRow) : bool :=
  match cookies_sessionId req with
  | Some sid => userMatches sid (params_id req) u
  | None => false
  end.

(** The user in a handler's answer, when it carries one. *)
Definition userShown (r : Result Answer) : option UserRow :=
  match r with
  | Val (Listed (LUser user)) => Some user
  | _ => None
  end.

(** The answer is one of the success replies (200, 201, 202). *)
Definition succeeded (r : Result Outcome) : bool :=
  match r with
  | Val (Sent status _) => status <? 300
  | _ => false
  end.

(** The row [POST /meals] inserts for the parsed body [b] and the resolved
    user. *)
Definition newMealRow `{Platform} `{MealsTable} (w : World) (user : UserRow)
    (b : MealBody) : MealRow :=
  mkMeal (randomUUIDAt (drawn w)) (u_id user) (b_mealName b) (b_description b)
    (Js.Bool (b_isOnTheDiet b)) inDietDefault dateAndHourDefault.

(** What [PUT /meals/:id] makes of a row. *)
Definition withMealBody (b : MealBody) (row : MealRow) : MealRow :=
  mkMeal (m_id row) (user_id row) (b_mealName b) (b_description b)
    (Js.Bool (b_isOnTheDiet b)) (inDiet row) (dateAndHour row).

(** [mealRun compliant meals i k]: the [k] meals from position [i] on exist
    and are all compliant.  [longestMealRun compliant meals n]: some run of
    compliant meals has length [n], and none is longer. *)
Definition mealRun (compliant : MealRow → Prop) (meals : list MealRow)
    (i k : nat) : Prop :=
  ∀ j, i ≤ j < i + k → ∃ meal, meals !! j = Some meal ∧ compliant meal.

Definition longestMealRun (compliant : MealRow → Prop) (meals : list MealRow)
    (n : nat) : Prop :=
  (∃ i, mealRun compliant meals i n) ∧ ∀ i k, mealRun compliant meals i k → k ≤ n.

(** The world after one [POST /meals] per flag, in order, all sent with the
    cookie [sid]. *)
Definition mealsPosted `{Platform} `{MealsTable} (sid : string)
    (flags : list bool) (w : World) : World :=
  fold_left
    (λ w flag,
       (POST_meals (mkRequest (Some sid) Js.Undefined
                      (mealBody "Refeição" "Do dia" flag)) w).1)
    flags w.

(** * Properties of the metrics computation *)

Section MetricsFacts.

Implicit Types (meals : list MealRow) (s : Streak).

Lemma streakLoop_cons s meal meals :
  streakLoop s (meal :: meals) = streakLoop (streakStep s meal) meals.
Proof. reflexivity. Qed.

Lemma streakFinish_max s :
  streakFinish s = Nat.max (maxStreak s) (currentStreak s).
Proof.
  unfold streakFinish. destruct (Nat.ltb_spec (maxStreak s) (currentStreak s)); lia.
Qed.

Lemma streakStep_broken s meal :
  inDietIs1 meal = false →
  streakStep s meal = mkStreak 0 (Nat.max (maxStreak s) (currentStreak s)).
Proof.
  intros Hm. unfold streakStep. rewrite Hm. f_equal.
  destruct (Nat.ltb_spec (maxStreak s) (currentStreak s)); lia.
Qed.

Lemma streakStep_kept s meal :
  inDietIs1 meal = true →
  streakStep s meal = mkStreak (S (currentStreak s)) (maxStreak s).
Proof. intros Hm. unfold streakStep. by rewrite Hm. Qed.

(** A run of a list that holds [false] at position [c] lies on one side of
    that position. *)
Lemma run_split (front back : list bool) i k :
  run (front ++ false :: back) i k →
  k = 0 ∨ i + k ≤ length front ∨
  (length front < i ∧ run back (i - S (length front)) k).
Proof.
  intros Hrun.
  destruct (decide (k = 0)) as [|Hk]; [by left|right].
  destruct (decide (i + k ≤ length front)) as [|Hfar]; [by left|right].
  assert (length front < i) as Hi.
  { destruct (decide (length front < i)) as [|Hle]; [done|exfalso].
    specialize (Hrun (length front)).
    rewrite list_lookup_middle in Hrun by done.
    assert (Some false = Some true) by (apply Hrun; lia). done. }
  split; [done|]. intros j Hj.
  specialize (Hrun (j + S (length front))).
  rewrite lookup_app_r in Hrun by lia.
  replace (j + S (length front) - length front) with (S j) in Hrun by lia.
  apply Hrun. lia.
Qed.

Lemma run_length (fl : list bool) i k : run fl i k → k = 0 ∨ i + k ≤ length fl.
Proof.
  intros Hrun. destruct k as [|k]; [by left|right].
  specialize (Hrun (i + k)).
  assert (fl !! (i + k) = Some true) as Hl by (apply Hrun; lia).
  apply lookup_lt_Some in Hl. lia.
Qed.

Lemma run_replicate_front c (back : list bool) :
  run (replicate c true ++ back) 0 c.
Proof.
  intros j Hj. rewrite lookup_app_l by (rewrite length_replicate; lia).
  apply lookup_replicate_2. lia.
Qed.

Lemma run_shift (front back : list bool) i k :
  run back i k → run (front ++ back) (length front + i) k.
Proof.
  intros Hrun j Hj. rewrite lookup_app_r by lia. apply Hrun. lia.
Qed.

(** The loop invariant, stated on what is still to be read: started with
    [c] compliant meals pending and [m] recorded, the loop followed by the
    reconciliation returns the larger of [m] and the longest run of
    [c] true flags followed by the flags of the remaining meals. *)
Lemma streak_invariant meals : ∀ c m,
  let r := streakFinish (streakLoop (mkStreak c m) meals) in
  let fl := replicate c true ++ map inDietIs1 meals in
  m ≤ r ∧ (∀ i k, run fl i k → k ≤ r) ∧ (r = m ∨ ∃ i, run fl i r).
Proof.
  induction meals as [|meal meals IH]; intros c m; cbn zeta.
  - cbn [streakLoop fold_left map]. rewrite streakFinish_max. cbn.
    rewrite app_nil_r. split; [lia|split].
    + intros i k Hrun. apply run_length in Hrun.
      rewrite length_replicate in Hrun. lia.
    + destruct (Nat.max_spec m c) as [[_ ->]|[_ ->]]; [right|by left].
      exists 0. rewrite <- (app_nil_r (replicate c true)).
      apply run_replicate_front.
  - rewrite streakLoop_cons. cbn [map].
    destruct (inDietIs1 meal) eqn:Hmeal.
    + rewrite streakStep_kept by done. cbn [currentStreak maxStreak].
      specialize (IH (S c) m). cbn zeta in IH.
      replace (replicate c true ++ true :: map inDietIs1 meals)
        with (replicate (S c) true ++ map inDietIs1 meals); [done|].
      rewrite replicate_S_end, <- app_assoc. done.
    + rewrite streakStep_broken by done. cbn [currentStreak maxStreak].
      specialize (IH 0 (Nat.max m c)). cbn zeta in IH. cbn [replicate app] in IH.
      destruct IH as (Hge & Hub & Hwit).
      split; [lia|split].
      * intros i k Hrun. apply run_split in Hrun.
        rewrite length_replicate in Hrun.
        destruct Hrun as [->|[Hfront|[_ Hback]]]; [lia|lia|].
        by apply Hub in Hback.
      * destruct Hwit as [Heq|[i Hrun]].
        -- rewrite Heq.
           destruct (Nat.max_spec m c) as [[_ ->]|[_ ->]]; [right|by left].
           exists 0. apply run_replicate_front.
        -- right. exists (length (replicate c true ++ [false]) + i).
           replace (replicate c true ++ false :: map inDietIs1 meals)
             with ((replicate c true ++ [false]) ++ map inDietIs1 meals)
             by (by rewrite <- app_assoc).
           by apply run_shift.
Qed.

Lemma inDietIs1_spec meal : inDietIs1 meal = true ↔ inDiet meal = Js.one.
Proof.
  unfold inDietIs1, Js.one. destruct (inDiet meal) as [| |b|[|z]|str]; cbn;
    try (split; [discriminate|discriminate]).
  rewrite Z.eqb_eq. split; [by intros ->|by intros [= ->]].
Qed.

Lemma inDietIs0_spec meal : inDietIs0 meal = true ↔ inDiet meal = Js.zero.
Proof.
  unfold inDietIs0, Js.zero. destruct (inDiet meal) as [| |b|[|z]|str]; cbn;
    try (split; [discriminate|discriminate]).
  rewrite Z.eqb_eq. split; [by intros ->|by intros [= ->]].
Qed.

(** Every meal falls in exactly one of three classes: flag 1, flag 0,
    anything else. *)
Lemma three_way_count meals :
  length meals =
    length (List.filter inDietIs1 meals) + length (List.filter inDietIs0 meals)
    + length (List.filter (λ item, negb (inDietIs1 item || inDietIs0 item)) meals).
Proof.
  induction meals as [|meal meals IH]; [done|]. cbn.
  destruct (inDietIs1 meal) eqn:H1, (inDietIs0 meal) eqn:H0; cbn; try lia.
  apply inDietIs1_spec in H1. apply inDietIs0_spec in H0.
  rewrite H1 in H0. discriminate H0.
Qed.

Lemma streak_bounded meals : ∀ c m,
  streakFinish (streakLoop (mkStreak c m) meals)
  ≤ Nat.max m (c + length (List.filter inDietIs1 meals)).
Proof.
  induction meals as [|meal meals IH]; intros c m.
  - cbn. rewrite streakFinish_max. cbn. lia.
  - rewrite streakLoop_cons. cbn [List.filter].
    destruct (inDietIs1 meal) eqn:Hmeal.
    + rewrite streakStep_kept by done. cbn [currentStreak maxStreak length].
      specialize (IH (S c) m). lia.
    + rewrite streakStep_broken by done. cbn [currentStreak maxStreak].
      specialize (IH 0 (Nat.max m c)). lia.
Qed.

End MetricsFacts.

Lemma run_of_ones (meals : list MealRow) i k :
  run (map inDietIs1 meals) i k ↔ mealRun (λ meal, inDiet meal = Js.one) meals i k.
Proof.
  unfold run, mealRun. split; intros Hrun j Hj; specialize (Hrun j Hj).
  - change (map inDietIs1 meals) with (inDietIs1 <$> meals) in Hrun.
    apply list_lookup_fmap_Some in Hrun as (meal & Hmeal & Htest).
    exists meal. split; [done|]. by apply inDietIs1_spec.
  - destruct Hrun as (meal & Hmeal & Hone).
    change (map inDietIs1 meals) with (inDietIs1 <$> meals).
    rewrite list_lookup_fmap, Hmeal. cbn. f_equal. by apply inDietIs1_spec.
Qed.

(** C1, as the code has it. For every sequence of meal records, the
    [bestSequenceOfMealsWithinTheDiet] of the returned metrics is the length
    of the longest contiguous run, in the given order, of meals whose [inDiet]
    is the number 1: some run of such meals has that length and none is
    longer.  It is what the [currentStreak]/[maxStreak] pass followed by the
    reconciliation after the loop computes. *)
Theorem best_sequence_is_longest_run_of_ones (meals : list MealRow) :
  longestMealRun (λ meal, inDiet meal = Js.one) meals
    (bestSequenceOfMealsWithinTheDiet (computeMetrics meals)).
Proof.
  destruct (streak_invariant meals 0 0) as (_ & Hub & Hwit).
  cbn [replicate app] in Hub, Hwit.
  cbn [computeMetrics bestSequenceOfMealsWithinTheDiet]. unfold bestStreak.
  split.
  - destruct Hwit as [Heq|[i Hrun]].
    + exists 0. rewrite Heq. intros j Hj. lia.
    + exists i. by apply run_of_ones.
  - intros i k Hrun. apply Hub with i. by apply run_of_ones.
Qed.

(** C1, as stated, fails: a meal whose flag is the boolean [true] is a run
    of one meal whose flag is true, and the metrics report a best sequence of
    0; so do they for two meals posted with [isOnTheDiet: true]. *)
Lemma boolean_true_flag_is_no_streak :
  let meals := [mealWithFlag (Js.Bool true)] in
  let P := platformWith numericCounts false in
  let w := @mealsPosted P nullDefaults "s1" [true; true] (worldOf [ana] []) in
  longestMealRun (λ meal, inDiet meal = Js.Bool true) meals 1
  ∧ bestSequenceOfMealsWithinTheDiet (computeMetrics meals) = 0
  ∧ ¬ longestMealRun (λ meal, inDiet meal = Js.Bool true) meals
        (bestSequenceOfMealsWithinTheDiet (computeMetrics meals))
  ∧ longestMealRun (λ meal, isOnTheDiet meal = Js.Bool true)
      (tbl_meals (store w)) 2
  ∧ (@GET_users_metrics P (withCookie "s1") w).2
    = Val (Returned (BMetrics (mkMetrics 2 0 0 0))).
Proof.
  assert (∀ (compliant : MealRow → Prop) (meals : list MealRow),
            Forall compliant meals →
            longestMealRun compliant meals (length meals)) as Hwhole.
  { intros compliant meals Hall. split.
    - exists 0. intros j Hj.
      destruct (lookup_lt_is_Some_2 meals j) as [meal Hmeal]; [lia|].
      exists meal. split; [done|].
      by eapply (proj1 (Forall_lookup _ _) Hall).
    - intros i k Hrun. destruct k as [|k]; [lia|].
      destruct (Hrun (i + k)) as (meal & Hmeal & _); [lia|].
      apply lookup_lt_Some in Hmeal. lia. }
  split; [apply (Hwhole _ [mealWithFlag (Js.Bool true)]); by repeat constructor|].
  split; [reflexivity|].
  split.
  - intros [_ Hub]. specialize (Hub 0 1). cbn in Hub.
    assert (1 ≤ 0); [|lia]. apply Hub. intros j Hj.
    exists (mealWithFlag (Js.Bool true)). split; [|done].
    by replace j with 0 by lia.
  - split; [|vm_compute; reflexivity].
    apply (Hwhole _ (tbl_meals (store
             (@mealsPosted (platformWith numericCounts false) nullDefaults "s1"
                [true; true] (worldOf [ana] []))))).
    vm_compute. by repeat constructor.
Qed.

(** The reconciliation is needed: without it a streak that reaches the end
    of the list is lost. *)
Example trailing_streak_needs_reconciliation :
  bestStreakNoFinish (map mealWithFlag [Js.one; Js.zero; Js.one; Js.one]) = 1.
Proof. reflexivity. Qed.

(** C2, as the code has it. For every sequence of meal records in which each
    record's [inDiet] is the number 1 or the number 0,
    [totalNumberOfMeals = totalNumberOfMealsInTheDiet +
    totalNumberOfMealsOffTheDiet]. *)
Theorem totals_partition_when_flags_are_0_or_1 (meals : list MealRow) :
  Forall (λ item, inDiet item = Js.one ∨ inDiet item = Js.zero) meals →
  totalNumberOfMeals (computeMetrics meals)
  = totalNumberOfMealsInTheDiet (computeMetrics meals)
    + totalNumberOfMealsOffTheDiet (computeMetrics meals).
Proof.
  intros Hflags. cbn. rewrite (three_way_count meals) at 1.
  replace (List.filter (λ item, negb (inDietIs1 item || inDietIs0 item)) meals)
    with (@nil MealRow); [cbn; lia|].
  symmetry. induction Hflags as [|item rest Hitem _ IH]; [done|].
  cbn. rewrite IH.
  destruct Hitem as [Hitem|Hitem].
  - apply inDietIs1_spec in Hitem. by rewrite Hitem.
  - apply inDietIs0_spec in Hitem. rewrite Hitem. by rewrite orb_true_r.
Qed.

Lemma totals_partition_witness :
  let meals := map mealWithFlag [Js.one; Js.zero; Js.one] in
  totalNumberOfMeals (computeMetrics meals)
  = totalNumberOfMealsInTheDiet (computeMetrics meals)
    + totalNumberOfMealsOffTheDiet (computeMetrics meals).
Proof.
  apply (totals_partition_when_flags_are_0_or_1
           (map mealWithFlag [Js.one; Js.zero; Js.one])).
  repeat (constructor; [first [left; reflexivity|right; reflexivity]|]).
  constructor.
Defined.

(** C2, as stated, fails: a meal whose [inDiet] is [null] is counted in the
    total and in neither summand. *)
Lemma totals_partition_fails_on_null_flag :
  let metrics := computeMetrics [mealWithFlag Js.Null] in
  totalNumberOfMeals metrics = 1
  ∧ totalNumberOfMealsInTheDiet metrics + totalNumberOfMealsOffTheDiet metrics = 0
  ∧ totalNumberOfMeals metrics
    ≠ totalNumberOfMealsInTheDiet metrics + totalNumberOfMealsOffTheDiet metrics.
Proof. cbn. repeat split; lia. Qed.

(** C3. For every sequence of meal records,
    [bestSequenceOfMealsWithinTheDiet <= totalNumberOfMealsInTheDiet]. *)
Theorem best_sequence_le_in_diet (meals : list MealRow) :
  bestSequenceOfMealsWithinTheDiet (computeMetrics meals)
  ≤ totalNumberOfMealsInTheDiet (computeMetrics meals).
Proof.
  cbn. unfold bestStreak.
  pose proof (streak_bounded meals 0 0) as Hb. lia.
Qed.

(** C5, as the code has it. On meals whose [inDiet] cells are, in order,
    the numbers 1, 0, 1, 1, the metrics report a best sequence of 2: the
    streak that runs to the end of the list is counted by the reconciliation
    after the loop, which alone would give 1. *)
Theorem trailing_streak_is_counted (meals : list MealRow) :
  map inDiet meals = [Js.one; Js.zero; Js.one; Js.one] →
  bestSequenceOfMealsWithinTheDiet (computeMetrics meals) = 2
  ∧ bestStreakNoFinish meals = 1.
Proof.
  intros Hflags.
  destruct meals as [|m1 [|m2 [|m3 [|m4 [|m5 rest]]]]]; try discriminate Hflags.
  injection Hflags as H1 H2 H3 H4.
  cbn. unfold bestStreak, bestStreakNoFinish, streakLoop, streakStep, inDietIs1.
  cbn. rewrite H1, H2, H3, H4. split; reflexivity.
Qed.

Lemma trailing_streak_witness :
  bestSequenceOfMealsWithinTheDiet
    (computeMetrics (map mealWithFlag [Js.one; Js.zero; Js.one; Js.one])) = 2
  ∧ bestStreakNoFinish (map mealWithFlag [Js.one; Js.zero; Js.one; Js.one]) = 1.
Proof.
  apply (trailing_streak_is_counted
           (map mealWithFlag [Js.one; Js.zero; Js.one; Js.one])).
  reflexivity.
Defined.

(** C5, as stated, fails: with the flags true, false, true, true themselves
    in the four meals, the metrics report a best sequence of 0, not 2; and
    four meals posted with these flags through [POST /meals] give the metrics
    (4, 0, 0, 0). *)
Lemma literal_flags_give_no_streak :
  let P := platformWith numericCounts false in
  let w := @mealsPosted P nullDefaults "s1" [true; false; true; true]
             (worldOf [ana] []) in
  bestSequenceOfMealsWithinTheDiet
    (computeMetrics (map mealWithFlag
                       [Js.Bool true; Js.Bool false; Js.Bool true; Js.Bool true]))
  = 0
  ∧ bestSequenceOfMealsWithinTheDiet
      (computeMetrics (map mealWithFlag
                         [Js.Bool true; Js.Bool false; Js.Bool true; Js.Bool true]))
    ≠ 2
  ∧ map isOnTheDiet (tbl_meals (store w))
    = [Js.Bool true; Js.Bool false; Js.Bool true; Js.Bool true]
  ∧ (@GET_users_metrics P (withCookie "s1") w).2
    = Val (Returned (BMetrics (mkMetrics 4 0 0 0))).
Proof.
  split; [reflexivity|]. split; [cbn; lia|]. split; vm_compute; reflexivity.
Qed.



(** Flags kept as JavaScript booleans are all "anything else": the same four
    meals then count as no streak at all. *)
Example boolean_flags_are_not_counted :
  computeMetrics (map mealWithFlag
                    [Js.Bool true; Js.Bool false; Js.Bool true; Js.Bool true])
  = mkMetrics 4 0 0 0.
Proof. reflexivity. Qed.

(** * Properties of the routes *)

(** Unfold a handler down to the store it reads. *)
Ltac unfold_handler :=
  unfold send, sendUnbound in *;
  unfold withPreHandler, tryCatch, bind, ret, throw,
    usersBySession, mealsOfSession, selectMeal, deleteMealRows, updateMealRows,
    countMeals, countUsers, insertUser, whereValue, logQuery, getStore,
    putStore, setReplyCookie, randomUUID in *.

Section RouteFacts.

Context `{Platform}.

Lemma filter_none {A} (f : A → bool) (l : list A) :
  (∀ x, x ∈ l → f x = false) → List.filter f l = [].
Proof.
  induction l as [|x l IH]; intros Hf; [done|]. cbn.
  rewrite (Hf x) by (by left). apply IH. intros y Hy. apply Hf. by right.
Qed.

(** The join is empty when no meal belongs to a user of the session. *)
Lemma joinMealsUsers_nil (s : Store) (sid : string) :
  (∀ u meal, u ∈ tbl_users s → session_id u = sid →
             meal ∈ tbl_meals s → user_id meal ≠ u_id u) →
  joinMealsUsers s sid = [].
Proof.
  unfold joinMealsUsers. intros Hnone.
  induction (tbl_meals s) as [|meal rest IH]; [done|]. cbn.
  rewrite filter_none; cbn.
  - apply IH. intros u m Hu Hs Hm. apply Hnone; [done|done|by right].
  - intros u Hu. apply andb_false_iff.
    destruct (hasSession sid u) eqn:Hs; [left|by right].
    apply String.eqb_eq in Hs. apply String.eqb_neq.
    intros Heq. by eapply (Hnone u meal); [|  |left|].
Qed.

Lemma getMetrics_result (req : Request) (w : World) (sid : string) :
  cookies_sessionId req = Some sid →
  (getMetrics req w).2 =
    if length (joinMealsUsers (store w) sid) =? 0
    then Val (Sent 404 noMealsForMetrics)
    else Val (Returned (BMetrics (computeMetrics (joinMealsUsers (store w) sid)))).
Proof.
  intros Hc. unfold getMetrics. unfold_handler. rewrite Hc. cbn.
  by destruct (length (joinMealsUsers (store w) sid) =? 0).
Qed.

Lemma getMetrics_no_cookie (req : Request) (w : World) :
  cookies_sessionId req = None →
  ∃ e, (getMetrics req w).2 = Thrown e.
Proof.
  intros Hc. unfold getMetrics. unfold_handler. rewrite Hc. cbn. eauto.
Qed.

End RouteFacts.

(** C4. When no meal belongs to a user of the request's session (so for
    every resolved user whose meal list is empty), [GET /users/metrics]
    answers 404 with the "no meals" message; and whatever the store holds, it
    never returns the metrics object whose four fields are zero. *)
Theorem metrics_empty_is_no_data `{Platform} (req : Request) (w : World) :
  checkSessionIdExists req = None →
  (GET_users_metrics req w).2 ≠ Val (Returned (BMetrics (mkMetrics 0 0 0 0)))
  ∧ ∀ sid, cookies_sessionId req = Some sid →
      (∀ u meal, u ∈ tbl_users (store w) → session_id u = sid →
                 meal ∈ tbl_meals (store w) → user_id meal ≠ u_id u) →
      (GET_users_metrics req w).2 = Val (Sent 404 noMealsForMetrics).
Proof.
  intros Hpre. unfold GET_users_metrics, withPreHandler. rewrite Hpre. split.
  - destruct (cookies_sessionId req) as [sid|] eqn:Hc.
    + rewrite (getMetrics_result req w sid Hc).
      destruct (joinMealsUsers (store w) sid) as [|meal rest]; cbn; [done|].
      intros [= Hlen]. 
    + destruct (getMetrics_no_cookie req w Hc) as [e ->]. done.
  - intros sid Hc Hnone. rewrite (getMetrics_result req w sid Hc).
    by rewrite joinMealsUsers_nil.
Qed.

Lemma metrics_empty_witness :
  let P := platformWith numericCounts false in
  let result :=
    (@GET_users_metrics P (withCookie "s1") (worldOf [ana; bia] [pizza])).2 in
  result ≠ Val (Returned (BMetrics (mkMetrics 0 0 0 0)))
  ∧ result = Val (Sent 404 noMealsForMetrics).
Proof.
  destruct (@metrics_empty_is_no_data (platformWith numericCounts false)
              (withCookie "s1") (worldOf [ana; bia] [pizza]) eq_refl) as [Hnz Hnd].
  split; [exact Hnz|].
  apply (Hnd "s1" eq_refl). cbn. intros u meal Hu Hs Hmeal.
  apply list_elem_of_In in Hu, Hmeal. cbn in Hu, Hmeal.
  destruct Hmeal as [<-|[]]. destruct Hu as [<-|[<-|[]]]; discriminate.
Defined.

(** Evaluate the character tests of [parseInt] on literal characters. *)
Ltac eval_char_tests :=
  repeat match goal with
    | |- context [Js.digitVal (Ascii ?a ?b ?c ?d ?e ?f ?g ?h)] =>
        let v := eval vm_compute in (Js.digitVal (Ascii a b c d e f g h)) in
        change (Js.digitVal (Ascii a b c d e f g h)) with v
    | |- context [Js.isWhite (Ascii ?a ?b ?c ?d ?e ?f ?g ?h)] =>
        let v := eval vm_compute in (Js.isWhite (Ascii a b c d e f g h)) in
        change (Js.isWhite (Ascii a b c d e f g h)) with v
    end.

Section ParseIntFacts.

Lemma digits_numeral d : ∀ acc,
  Js.digits 10 (NilEmpty.string_of_uint d) (Some acc) = Some (numeralValue d acc).
Proof.
  induction d; intros acc; [done|..];
    cbn [NilEmpty.string_of_uint Js.digits]; eval_char_tests;
    cbn [default Z.ltb Z.compare Pos.compare Pos.compare_cont];
    apply IHd.
Qed.

Lemma numeralValue_pos d : ∀ p,
  numeralValue d (Zpos p) = Zpos (Pos.of_uint_acc d p).
Proof.
  induction d; intros p; cbn [numeralValue Pos.of_uint_acc]; [done|..];
    rewrite <- IHd; f_equal; lia.
Qed.

Lemma numeralValue_of_uint d : numeralValue d 0 = Z.of_N (Pos.of_uint d).
Proof.
  induction d; cbn [numeralValue Pos.of_uint]; [done|exact IHd|..];
    cbn [Z.mul Z.add Z.of_N]; apply numeralValue_pos.
Qed.

Lemma parseInt_numeral d :
  d ≠ Decimal.Nil →
  Js.parseInt (Js.Str (NilEmpty.string_of_uint d)) = Js.Num (numeralValue d 0).
Proof.
  intros Hd. unfold Js.parseInt.
  assert (∀ k, (1 * k = k)%Z) as Hone by (intros; lia).
  destruct d as [|l|l|l|l|l|l|l|l|l|l]; [done|..];
    cbn [Js.toString NilEmpty.string_of_uint Js.trimStart]; eval_char_tests;
    cbn [Js.stripSign Js.stripRadix];
    try (cbn [Js.digits]; eval_char_tests;
         cbn [default Z.ltb Z.compare Pos.compare Pos.compare_cont];
         by rewrite digits_numeral, Hone).
  destruct l; cbn [NilEmpty.string_of_uint Js.stripRadix Js.digits];
    eval_char_tests;
    cbn [default Z.ltb Z.compare Pos.compare Pos.compare_cont Js.digits];
    try done; by rewrite digits_numeral, Hone.
Qed.

Lemma parseInt_textCounts (n : nat) :
  Js.parseInt (textCounts n) = Js.Num (Z.of_nat n).
Proof.
  unfold textCounts. destruct (Z.of_nat n) as [|p|p] eqn:Hn; [done| |lia].
  cbn [Z.to_int].
  pose proof (DecimalPos.Unsigned.to_uint_nonnil p) as Hnil.
  pose proof (DecimalPos.Unsigned.of_to p) as Hof.
  destruct (Pos.to_uint p) eqn:Hd; [done|..];
    match goal with
    | |- Js.parseInt (Js.Str (NilZero.string_of_int (Decimal.Pos ?d))) = _ =>
        change (Js.parseInt (Js.Str (NilEmpty.string_of_uint d)) = Js.Num (Zpos p))
    end;
    rewrite parseInt_numeral by done; by rewrite numeralValue_of_uint, Hof.
Qed.

Lemma parseInt_numericCounts (n : nat) :
  Js.parseInt (numericCounts n) = Js.Num (Z.of_nat n).
Proof. apply (parseInt_textCounts n). Qed.

End ParseIntFacts.

Section SummaryFacts.

Context `{Platform}.

Lemma usersSummary_unresolved (req : Request) (w : World) (sid : string) :
  cookies_sessionId req = Some sid →
  List.filter (hasSession sid) (tbl_users (store w)) = [] →
  usersSummary req w
  = (afterQueries w [SelectUsersBySession sid], Val (Sent 404 userNotFound)).
Proof.
  intros Hc Hnone. unfold usersSummary. unfold_handler. rewrite Hc. cbn.
  by rewrite Hnone.
Qed.

Lemma mealsSummary_unresolved (req : Request) (w : World) (sid : string) :
  cookies_sessionId req = Some sid →
  List.filter (hasSession sid) (tbl_users (store w)) = [] →
  mealsSummary req w
  = (afterQueries w [SelectUsersBySession sid], Thrown (ReferenceError "response")).
Proof.
  intros Hc Hnone. unfold mealsSummary. unfold_handler. rewrite Hc. cbn.
  by rewrite Hnone.
Qed.

Lemma mealsSummary_resolved (req : Request) (w : World) (sid : string)
    (user : UserRow) (others : list UserRow) :
  cookies_sessionId req = Some sid →
  List.filter (hasSession sid) (tbl_users (store w)) = user :: others →
  let uid := u_id user in
  let counted flag :=
    countRepr (length (List.filter (mealCounted uid flag) (tbl_meals (store w)))) in
  mealsSummary req w
  = (afterQueries w [SelectUsersBySession sid; CountMeals uid None;
                     CountMeals uid (Some true); CountMeals uid (Some false)],
     Val (Returned (BMealsSummary
                      (Js.parseInt (Js.jsonRoundTrip (counted None)))
                      (Js.parseInt (Js.jsonRoundTrip (counted (Some true))))
                      (Js.parseInt (Js.jsonRoundTrip (counted (Some false))))))).
Proof.
  intros Hc Hsome. unfold mealsSummary. unfold_handler. rewrite Hc. cbn.
  rewrite Hsome. cbn. unfold afterQueries. by rewrite <- !app_assoc.
Qed.

End SummaryFacts.

(** C6, at a request the code can receive: the cookie [s9] belongs to no
    user.  [GET /users/summary] answers 404 "user not found" after the one
    look-up; [GET /meals/summary], on the same request and store, throws a
    ReferenceError instead, from the handler and again from its [catch]: its
    handler does not bind [response].  Neither issues a count. *)
Theorem meals_summary_unresolved_session_throws :
  let P := platformWith numericCounts false in
  let w := worldOf [ana; bia] [salada; pizza] in
  @GET_users_summary P (withCookie "s9") w
  = (afterQueries w [SelectUsersBySession "s9"], Val (Sent 404 userNotFound))
  ∧ @GET_meals_summary P (withCookie "s9") w
    = (afterQueries w [SelectUsersBySession "s9"],
       Thrown (ReferenceError "response")).
Proof. split; reflexivity. Qed.

(** C7, as the code has it. For every request that resolves to a user,
    [GET /meals/summary] returns a summary of exactly three fields (meals
    recorded, within the diet, off the diet), each of them [parseInt] of the
    value the storage layer gave for that count, and it changes no table.
    When the storage layer gives each count as a number or as its decimal
    text, the three fields are the three counts. *)
Theorem meals_summary_fields `{Platform} (req : Request) (w : World)
    (sid : string) (user : UserRow) (others : list UserRow) :
  checkSessionIdExists req = None →
  cookies_sessionId req = Some sid →
  List.filter (hasSession sid) (tbl_users (store w)) = user :: others →
  let count flag :=
    length (List.filter (mealCounted (u_id user) flag) (tbl_meals (store w))) in
  let field flag := Js.parseInt (Js.jsonRoundTrip (countRepr (count flag))) in
  (GET_meals_summary req w).2
  = Val (Returned (BMealsSummary (field None) (field (Some true))
                     (field (Some false))))
  ∧ store (GET_meals_summary req w).1 = store w
  ∧ ((∀ n, countRepr n = numericCounts n ∨ countRepr n = textCounts n) →
     ∀ flag, field flag = Js.Num (Z.of_nat (count flag))).
Proof.
  intros Hpre Hc Hsome count field. unfold GET_meals_summary, withPreHandler.
  rewrite Hpre, (mealsSummary_resolved req w sid user others Hc Hsome).
  split; [done|]. split; [done|].
  intros Hrepr flag. unfold field.
  destruct (Hrepr (count flag)) as [->| ->].
  - apply parseInt_numericCounts.
  - apply parseInt_textCounts.
Qed.

Lemma meals_summary_fields_witness :
  let P := platformWith textCounts false in
  let w := worldOf [ana; bia] [salada; pizza] in
  (@GET_meals_summary P (withCookie "s1") w).2
  = Val (Returned (BMealsSummary (Js.Num 1) (Js.Num 1) (Js.Num 0)))
  ∧ store (@GET_meals_summary P (withCookie "s1") w).1 = store w
  ∧ ∀ flag,
      let n := length (List.filter (mealCounted "u1" flag) [salada; pizza]) in
      Js.parseInt (Js.jsonRoundTrip (textCounts n)) = Js.Num (Z.of_nat n).
Proof.
  destruct (@meals_summary_fields (platformWith textCounts false)
              (withCookie "s1") (worldOf [ana; bia] [salada; pizza])
              "s1" ana [] eq_refl eq_refl eq_refl) as (Hout & Hstore & Hfields).
  split; [exact Hout|]. split; [exact Hstore|].
  exact (Hfields (λ n, or_intror eq_refl)).
Defined.

(** C7, as stated, fails on its last clause: when the storage layer gives a
    count that does not parse, nothing fails; the summary is returned with
    [NaN] in the field. *)
Lemma unparseable_count_is_not_a_failure :
  let P := platformWith (λ _, Js.Str "abc") false in
  let w := worldOf [ana; bia] [salada; pizza] in
  Js.parseInt (@countRepr P 1) = Js.NaN
  ∧ (@GET_meals_summary P (withCookie "s1") w).2
    = Val (Returned (BMealsSummary Js.NaN Js.NaN Js.NaN)).
Proof. split; reflexivity. Qed.

Section OwnershipFacts.

Context `{Platform}.

Lemma writeRows_others sel change onlyFirst (keep : MealRow → bool) rows :
  (∀ r, sel r = true → keep r = false) →
  (∀ r r', sel r = true → change r = Some r' → keep r' = false) →
  List.filter keep (writeRows sel change onlyFirst rows).1 = List.filter keep rows.
Proof.
  intros Hsel Hchange. induction rows as [|row rest IH]; [done|]. cbn.
  destruct (sel row) eqn:Hrow.
  - rewrite (Hsel row Hrow).
    destruct onlyFirst.
    + destruct (change row) as [row'|] eqn:Hc; cbn; [|done].
      by rewrite (Hchange row row' Hrow Hc).
    + destruct (writeRows sel change false rest) as [rest' n]. cbn in IH.
      destruct (change row) as [row'|] eqn:Hc; cbn; [|done].
      by rewrite (Hchange row row' Hrow Hc).
  - destruct (writeRows sel change onlyFirst rest) as [rest' n]. cbn in *.
    by rewrite IH.
Qed.

Lemma mealMatches_owned id (user : UserRow) meal :
  mealMatches id (u_id user) meal = true → notOwnedBy (Some user) meal = false.
Proof.
  unfold mealMatches, notOwnedBy. intros [_ Hu]%andb_true_iff. by rewrite Hu.
Qed.

Lemma head_filter_sat {A} (f : A → bool) (l : list A) x :
  head (List.filter f l) = Some x → f x = true.
Proof.
  induction l as [|y l IH]; [done|]. cbn. destruct (f y) eqn:Hy; [|done].
  cbn. by intros [= <-].
Qed.

Lemma getMeal_keepsToOwner req w : keepsToOwner getMeal req w.
Proof.
  unfold keepsToOwner, mealsOfOthers, resolvedUser, getMeal, parseMealParams,
    zUuid, zString.
  unfold_handler.
  destruct (params_id req) as [| |b|n|id]; cbn; try done.
  destruct (isUuid id); cbn; [|done].
  destruct (cookies_sessionId req) as [sid|]; cbn; [|done].
  destruct (head (List.filter (hasSession sid) (tbl_users (store w)))) as [user|];
    cbn; [|done].
  destruct (head (List.filter (mealMatches id (u_id user)) (tbl_meals (store w))))
    as [meal|] eqn:Hmeal; cbn; [|done].
  split; [done|]. apply head_filter_sat in Hmeal. by eapply mealMatches_owned.
Qed.

Lemma deleteMeal_keepsToOwner req w : keepsToOwner deleteMeal req w.
Proof.
  unfold keepsToOwner, mealsOfOthers, resolvedUser, deleteMeal, parseMealParams,
    zUuid, zString.
  unfold_handler.
  destruct (params_id req) as [| |b|n|id]; cbn; try done.
  destruct (isUuid id); cbn; [|done].
  destruct (cookies_sessionId req) as [sid|]; cbn; [|done].
  destruct (head (List.filter (hasSession sid) (tbl_users (store w)))) as [user|];
    cbn; [|done].
  pose proof (writeRows_others (mealMatches id (u_id user)) (λ _, None)
                writesHonourLimit (notOwnedBy (Some user)) (tbl_meals (store w))
                (mealMatches_owned id user)) as Hw.
  destruct (writeRows _ _ _ _) as [rows n]. cbn in *.
  destruct (n =? 0); cbn; (split; [|done]); by apply Hw.
Qed.

Lemma editMeal_keepsToOwner req w : keepsToOwner editMeal req w.
Proof.
  unfold keepsToOwner, mealsOfOthers, resolvedUser, editMeal, parseMealParams,
    parseMealBody, zUuid, zString, zBoolean.
  unfold_handler.
  destruct (params_id req) as [| |b|n|id]; cbn; try done.
  destruct (isUuid id); cbn; [|done].
  destruct (cookies_sessionId req) as [sid|]; cbn; [|done].
  destruct (head (List.filter (hasSession sid) (tbl_users (store w)))) as [user|];
    cbn; [|done].
  destruct (body req !! "name") as [[| | | |name]|]; cbn; try done.
  destruct (body req !! "description") as [[| | | |description]|]; cbn; try done.
  destruct (body req !! "isOnTheDiet") as [[| |onTheDiet| |]|]; cbn; try done.
  match goal with
  | |- context [writeRows ?sel ?change _ _] =>
      pose proof (writeRows_others sel change writesHonourLimit
                    (notOwnedBy (Some user)) (tbl_meals (store w))
                    (mealMatches_owned id user)) as Hw
  end.
  destruct (writeRows _ _ _ _) as [rows n]. cbn in *.
  destruct (n =? 0); cbn; (split; [|done]); apply Hw;
    intros r r' Hr [= <-]; cbn; by apply (mealMatches_owned id user r).
Qed.

End OwnershipFacts.

(** C8. On every request and store, each of [GET /meals/:id],
    [DELETE /meals/:id] and [PUT /meals/:id] keeps to the meals of the user
    resolved from the session cookie: the meals whose [user_id] is not that
    user's id are the same rows afterwards, and a meal is returned only if its
    [user_id] is that user's id.  When no user is resolved, no meal is
    changed or returned.  This holds of the three handlers, and so of the
    routes on every request the session middleware lets through. *)
Theorem meal_routes_keep_to_owner `{Platform} (req : Request) (w : World) :
  (keepsToOwner getMeal req w
   ∧ keepsToOwner deleteMeal req w
   ∧ keepsToOwner editMeal req w)
  ∧ (checkSessionIdExists req = None →
     keepsToOwner GET_meals_id req w
     ∧ keepsToOwner DELETE_meals_id req w
     ∧ keepsToOwner PUT_meals_id req w).
Proof.
  assert (keepsToOwner getMeal req w ∧ keepsToOwner deleteMeal req w
          ∧ keepsToOwner editMeal req w) as Hhandlers.
  { split; [apply getMeal_keepsToOwner|].
    split; [apply deleteMeal_keepsToOwner|apply editMeal_keepsToOwner]. }
  split; [exact Hhandlers|]. intros Hpre.
  unfold GET_meals_id, DELETE_meals_id, PUT_meals_id, keepsToOwner, withPreHandler.
  rewrite Hpre. exact Hhandlers.
Qed.

Lemma meal_routes_witness :
  let P := platformWith numericCounts false in
  let req := mkRequest (Some "s1") (Js.Str "m2") ∅ in
  let w := worldOf [ana; bia] [salada; pizza] in
  keepsToOwner (@GET_meals_id P) req w
  ∧ keepsToOwner (@DELETE_meals_id P) req w
  ∧ keepsToOwner (@PUT_meals_id P) req w.
Proof.
  exact (proj2 (@meal_routes_keep_to_owner (platformWith numericCounts false)
                  (mkRequest (Some "s1") (Js.Str "m2") ∅)
                  (worldOf [ana; bia] [salada; pizza])) eq_refl).
Defined.

(** Ana asks for, deletes and edits Bia's pizza, then deletes her own
    salad. *)
Example ana_cannot_see_bias_meal :
  (@GET_meals_id (platformWith numericCounts false)
     (mkRequest (Some "s1") (Js.Str "m2") ∅)
     (worldOf [ana; bia] [salada; pizza])).2
  = Val (Sent 404 mealNotFound).
Proof. reflexivity. Qed.

Example ana_cannot_delete_bias_meal :
  let r := @DELETE_meals_id (platformWith numericCounts false)
             (mkRequest (Some "s1") (Js.Str "m2") ∅)
             (worldOf [ana; bia] [salada; pizza]) in
  r.2 = Val (Sent 401 (BError "Unauthorized"))
  ∧ tbl_meals (store r.1) = [salada; pizza].
Proof. split; reflexivity. Qed.

Example ana_deletes_her_meal :
  let r := @DELETE_meals_id (platformWith numericCounts false)
             (mkRequest (Some "s1") (Js.Str "m1") ∅)
             (worldOf [ana; bia] [salada; pizza]) in
  r.2 = Val (Sent 202 (BText "Refeição deletada com sucesso"))
  ∧ tbl_meals (store r.1) = [pizza].
Proof. split; reflexivity. Qed.

Example ana_cannot_edit_bias_meal :
  let r := @PUT_meals_id (platformWith numericCounts true)
             (mkRequest (Some "s1") (Js.Str "m2")
                {[ "name" := Js.Str "Bolo"; "description" := Js.Str "De cenoura";
                   "isOnTheDiet" := Js.Bool true ]})
             (worldOf [ana; bia] [salada; pizza]) in
  r.2 = Val (Sent 401 mealNotFound)
  ∧ tbl_meals (store r.1) = [salada; pizza].
Proof. split; reflexivity. Qed.

Section RegistrationFacts.

Context `{Platform}.

(** A registration answered 201 has appended one user, whose token is the
    cookie's when there is one, a new uuid otherwise. *)
Lemma createUser_success (req : Request) (w : World) (payload : Body) :
  (createUser req w).2 = Val (Sent 201 payload) →
  ∃ row, tbl_users (store (createUser req w).1) = tbl_users (store w) ++ [row]
         ∧ session_id row = tokenStored req w.
Proof.
  unfold createUser, parseUserBody, sessionForRegistration, tokenStored,
    zEmail, zString, zNumber.
  unfold_handler.
  destruct (body req !! "name") as [[| | | |name]|]; cbn; try discriminate.
  destruct (body req !! "email") as [[| | | |email]|]; cbn; try discriminate.
  destruct (isEmail email); cbn; [|discriminate].
  destruct (body req !! "address") as [[| | | |address]|]; cbn; try discriminate.
  destruct (body req !! "weight") as [[| | |[|weight]|]|]; cbn; try discriminate.
  destruct (body req !! "height") as [[| | |[|height]|]|]; cbn; try discriminate.
  destruct (head _) as [taken|]; cbn; [discriminate|].
  destruct (cookieMissing (cookies_sessionId req)); cbn; intros _; eauto.
Qed.

Lemma NoDup_snoc (l : list string) (x : string) :
  NoDup (l ++ [x]) ↔ NoDup l ∧ x ∉ l.
Proof.
  rewrite NoDup_app. split.
  - intros (Hl & Hx & _). split; [done|]. intros Hin. apply (Hx x Hin). by left.
  - intros [Hl Hx]. split; [done|]. split; [|apply NoDup_singleton].
    intros y Hy ->%list_elem_of_singleton. done.
Qed.

End RegistrationFacts.

(** C9, as the code has it. From a user store whose session tokens are
    pairwise distinct, a registration answered 201 leaves them pairwise
    distinct exactly when the token it stores is not yet in the store; that
    token is the request's [sessionId] cookie when it has a non-empty one,
    and a new uuid otherwise. *)
Theorem registration_keeps_tokens_distinct_iff_fresh `{Platform}
    (req : Request) (w : World) (payload : Body) :
  NoDup (sessionTokens w) →
  (POST_users req w).2 = Val (Sent 201 payload) →
  (NoDup (sessionTokens (POST_users req w).1)
   ↔ tokenStored req w ∉ sessionTokens w).
Proof.
  intros Hdistinct Hok. unfold POST_users in *.
  destruct (createUser_success req w payload Hok) as (row & Husers & Htoken).
  unfold sessionTokens. rewrite Husers, map_app. cbn [map]. rewrite Htoken.
  rewrite NoDup_snoc. unfold sessionTokens in Hdistinct. tauto.
Qed.

Lemma registration_without_cookie_witness :
  let P := platformWith numericCounts false in
  let req := mkRequest None Js.Undefined newcomer in
  let w := worldOf [ana; bia] [] in
  NoDup (sessionTokens (@POST_users P req w).1)
  ∧ sessionTokens (@POST_users P req w).1 = ["s1"; "s2"; "uuid-0"].
Proof.
  split; [|reflexivity].
  apply (@registration_keeps_tokens_distinct_iff_fresh
           (platformWith numericCounts false)
           (mkRequest None Js.Undefined newcomer) (worldOf [ana; bia] [])
           (BMessage "Usuário cadastrado com sucesso")).
  - apply (bool_decide_unpack _). vm_compute. reflexivity.
  - vm_compute. reflexivity.
  - apply (bool_decide_unpack _). vm_compute. reflexivity.
Defined.

(** C9, as stated, fails: a registration that carries the cookie of a
    registered user succeeds and stores that token a second time. *)
Lemma registration_reuses_cookie_token :
  let P := platformWith numericCounts false in
  let req := mkRequest (Some "s1") Js.Undefined newcomer in
  let w := worldOf [ana; bia] [] in
  NoDup (sessionTokens w)
  ∧ (@POST_users P req w).2 = Val (Sent 201 (BMessage "Usuário cadastrado com sucesso"))
  ∧ sessionTokens (@POST_users P req w).1 = ["s1"; "s2"; "s1"]
  ∧ ¬ NoDup (sessionTokens (@POST_users P req w).1).
Proof.
  split; [apply (bool_decide_unpack _); vm_compute; reflexivity|].
  split; [vm_compute; reflexivity|].
  split; [vm_compute; reflexivity|].
  apply (bool_decide_eq_false_1 _). vm_compute. reflexivity.
Qed.

(** * Further properties of the metrics computation *)

Section MoreMetricsFacts.

Implicit Types (meals : list MealRow).

Lemma run_all_true (fl : list bool) :
  Forall (λ b, b = true) fl → run fl 0 (length fl).
Proof.
  intros Hall j Hj.
  destruct (lookup_lt_is_Some_2 fl j) as [b Hb]; [lia|].
  rewrite Hb. f_equal. eapply (proj1 (Forall_lookup _ _) Hall); eauto.
Qed.

Lemma run_app_l (fl more : list bool) i k : run fl i k → run (fl ++ more) i k.
Proof. intros Hrun j Hj. apply lookup_app_l_Some. by apply Hrun. Qed.

Lemma some_true_flag (f : MealRow → bool) meals :
  0 < length (List.filter f meals) → ∃ j, map f meals !! j = Some true.
Proof.
  induction meals as [|meal meals IH]; cbn; [lia|].
  destruct (f meal) eqn:Hf.
  - intros _. by exists 0.
  - intros Hpos. destruct (IH Hpos) as [j Hj]. by exists (S j).
Qed.

Lemma bestStreak_longest meals : longestRun (map inDietIs1 meals) (bestStreak meals).
Proof.
  destruct (streak_invariant meals 0 0) as (_ & Hub & Hwit).
  cbn [replicate app] in Hub, Hwit. split; [|exact Hub].
  destruct Hwit as [Heq|Hrun]; [|exact Hrun].
  exists 0. unfold bestStreak. rewrite Heq. intros j Hj. lia.
Qed.

Lemma longestRun_unique (fl : list bool) n m :
  longestRun fl n → longestRun fl m → n = m.
Proof.
  intros [[i Hn] Hubn] [[j Hm] Hubm].
  apply Hubm in Hn. apply Hubn in Hm. lia.
Qed.

Lemma rev_is_reverse {A} (l : list A) : rev l = reverse l.
Proof.
  induction l as [|x l IH]; [done|]. rewrite reverse_cons, <- IH. done.
Qed.

Lemma run_reverse (fl : list bool) i k :
  run fl i k → ∃ i', run (reverse fl) i' k.
Proof.
  intros Hrun. destruct (run_length fl i k Hrun) as [->|Hlen].
  - exists 0. intros j Hj. lia.
  - exists (length fl - (i + k)). intros j Hj.
    rewrite reverse_lookup by lia. apply Hrun. lia.
Qed.

Lemma longestRun_reverse (fl : list bool) n :
  longestRun fl n → longestRun (reverse fl) n.
Proof.
  intros [[i Hrun] Hub]. split; [by eapply run_reverse|].
  intros j k Hk. apply run_reverse in Hk as [j' Hk].
  rewrite reverse_involutive in Hk. by eapply Hub.
Qed.

End MoreMetricsFacts.

(** X1. When every meal has [inDiet] 1, the best sequence is the number of
    meals, and so are the total and the in-diet count. *)
Theorem all_in_diet_streak_is_length (meals : list MealRow) :
  Forall (λ item, inDiet item = Js.one) meals →
  computeMetrics meals
  = mkMetrics (length meals) (length meals) 0 (length meals).
Proof.
  intros Hall.
  assert (List.filter inDietIs1 meals = meals) as Hin.
  { induction Hall as [|item rest Hitem _ IH]; [done|]. cbn.
    apply inDietIs1_spec in Hitem. by rewrite Hitem, IH. }
  assert (List.filter inDietIs0 meals = []) as Hoff.
  { apply filter_none. intros item Hitem.
    eapply (proj1 (Forall_forall _ _) Hall) in Hitem.
    unfold inDietIs0. by rewrite Hitem. }
  unfold computeMetrics. rewrite Hin, Hoff. cbn [length]. f_equal.
  apply Nat.le_antisymm.
  - pose proof (streak_bounded meals 0 0) as Hb. rewrite Hin in Hb.
    unfold bestStreak. lia.
  - destruct (bestStreak_longest meals) as [_ Hub].
    specialize (Hub 0 (length meals)). rewrite <- (length_map inDietIs1) at 1.
    rewrite <- (length_map inDietIs1 meals) in Hub. apply Hub.
    apply run_all_true. apply Forall_map.
    eapply Forall_impl; [exact Hall|]. intros item Hitem. by apply inDietIs1_spec.
Qed.

Lemma all_in_diet_witness :
  computeMetrics (map mealWithFlag [Js.one; Js.one; Js.one]) = mkMetrics 3 3 0 3.
Proof.
  apply (all_in_diet_streak_is_length (map mealWithFlag [Js.one; Js.one; Js.one])).
  repeat constructor.
Defined.

(** X2. The best sequence is zero exactly when no meal is counted as
    within the diet. *)
Theorem best_sequence_zero_iff_none_in_diet (meals : list MealRow) :
  bestSequenceOfMealsWithinTheDiet (computeMetrics meals) = 0
  ↔ totalNumberOfMealsInTheDiet (computeMetrics meals) = 0.
Proof.
  cbn. split.
  - intros Hbest.
    destruct (Nat.eq_dec (length (List.filter inDietIs1 meals)) 0) as [|Hpos]; [done|].
    destruct (some_true_flag inDietIs1 meals) as [j Hj]; [lia|].
    destruct (bestStreak_longest meals) as [_ Hub].
    assert (1 ≤ bestStreak meals); [|lia].
    apply (Hub j 1). intros j' Hj'. by replace j' with j by lia.
  - intros Hnone. pose proof (streak_bounded meals 0 0) as Hb.
    unfold bestStreak. lia.
Qed.

(** X3. Meals added before or after a list never lower its best
    sequence. *)
Theorem best_sequence_grows_with_the_list (before meals after : list MealRow) :
  bestSequenceOfMealsWithinTheDiet (computeMetrics meals)
  ≤ bestSequenceOfMealsWithinTheDiet (computeMetrics (before ++ meals ++ after)).
Proof.
  cbn. destruct (bestStreak_longest meals) as [[i Hrun] _].
  destruct (bestStreak_longest (before ++ meals ++ after)) as [_ Hub].
  apply (Hub (length (map inDietIs1 before) + i)).
  rewrite !map_app. apply run_shift. by apply run_app_l.
Qed.

(** X4. The metrics do not depend on the direction in which the list is
    read: the reversed list has the same counts and the same best
    sequence. *)
Theorem metrics_of_reversed_list (meals : list MealRow) :
  computeMetrics (rev meals) = computeMetrics meals.
Proof.
  unfold computeMetrics. rewrite !filter_rev, !length_rev. f_equal.
  eapply longestRun_unique; [apply bestStreak_longest|].
  rewrite map_rev, rev_is_reverse.
  apply longestRun_reverse, bestStreak_longest.
Qed.

(** * Further properties of the routes *)

(** Take a handler apart, case by case. *)
Ltac crunch_handler :=
  cbv beta iota delta
    [withPreHandler withPreHandlerListing plain tryCatch bind ret throw send
     sendUnbound usersBySession mealsOfSession selectMeal deleteMealRows
     updateMealRows countMeals countUsers insertUser insertMeal updateUserRows
     deleteUserRows whereValue whereParam logQuery getStore putStore
     setReplyCookie randomUUID] in *;
  cbn;
  try done;
  repeat (case_match; simplify_eq/=; try done).

Section JoinFacts.

(** Among users with distinct ids, at most one has a given id. *)
Lemma one_user_per_id (users : list UserRow) (sid uid : string) (meal : MealRow) :
  NoDup (map u_id users) →
  map (λ _ : UserRow, meal)
    (List.filter (λ u, String.eqb (u_id u) uid && hasSession sid u) users)
  = if existsb (λ u, String.eqb (u_id u) uid && hasSession sid u) users
    then [meal] else [].
Proof.
  induction users as [|u users IH]; [done|]. cbn [map]. intros Hnd.
  apply NoDup_cons in Hnd as [Hfresh Hnd]. cbn [List.filter existsb].
  destruct (String.eqb (u_id u) uid && hasSession sid u) eqn:Htest; cbn.
  - rewrite filter_none; [done|]. intros u' Hu'.
    apply andb_true_iff in Htest as [Hid _]. apply String.eqb_eq in Hid.
    apply andb_false_iff. left. apply String.eqb_neq. intros Hid'.
    apply Hfresh. rewrite Hid, <- Hid'. by apply list_elem_of_fmap_2.
  - by apply IH.
Qed.

End JoinFacts.

(** X6. When user ids are distinct, the join behind [GET /users/metrics]
    returns each meal of the session's users once, in table order: it is the
    meals table filtered by "the owner has this session". *)
Theorem metrics_join_is_a_filter (s : Store) (sid : string) :
  NoDup (map u_id (tbl_users s)) →
  joinMealsUsers s sid
  = List.filter
      (λ meal, existsb (λ u, String.eqb (u_id u) (user_id meal) && hasSession sid u)
                 (tbl_users s))
      (tbl_meals s).
Proof.
  intros Hnd. unfold joinMealsUsers.
  induction (tbl_meals s) as [|meal rest IH]; [done|]. cbn.
  rewrite (one_user_per_id (tbl_users s) sid (user_id meal) meal Hnd), IH.
  by destruct (existsb _ _).
Qed.

Lemma metrics_join_witness :
  joinMealsUsers (mkStore [ana; bia] [salada; pizza; salada]) "s1"
  = [salada; salada].
Proof.
  rewrite (metrics_join_is_a_filter (mkStore [ana; bia] [salada; pizza; salada]) "s1").
  - reflexivity.
  - apply (bool_decide_unpack _). vm_compute. reflexivity.
Defined.

(** Two rows of [users] with the same id make the join return their meals
    twice. *)
Example join_repeats_meals_of_a_repeated_user :
  joinMealsUsers (mkStore [ana; ana] [salada]) "s1" = [salada; salada].
Proof. reflexivity. Qed.

Section ReadOnlyFacts.

Context `{Platform} `{MealsTable}.

Lemma getMetrics_onlyRead req w : onlyRead w (getMetrics req w).1.
Proof. unfold onlyRead, getMetrics. crunch_handler. Qed.

Lemma usersSummary_onlyRead req w : onlyRead w (usersSummary req w).1.
Proof. unfold onlyRead, usersSummary. crunch_handler. Qed.

Lemma mealsSummary_onlyRead req w : onlyRead w (mealsSummary req w).1.
Proof. unfold onlyRead, mealsSummary. crunch_handler. Qed.

Lemma getMeal_onlyRead req w : onlyRead w (getMeal req w).1.
Proof.
  unfold onlyRead, getMeal, parseMealParams, zUuid, zString. crunch_handler.
Qed.

Lemma listUsers_onlyRead req w : onlyRead w (listUsers req w).1.
Proof. unfold onlyRead, listUsers, plain. crunch_handler. Qed.

Lemma getUser_onlyRead req w : onlyRead w (getUser req w).1.
Proof. unfold onlyRead, getUser, plain, whereParam. crunch_handler. Qed.

Lemma listMeals_onlyRead req w : onlyRead w (listMeals req w).1.
Proof. unfold onlyRead, listMeals, plain. crunch_handler. Qed.

End ReadOnlyFacts.

(** X7. The seven [GET] routes only read: whatever the request and the
    store, the two tables are afterwards what they were, no cookie is set and
    no uuid is drawn. *)
Theorem get_routes_only_read `{Platform} `{MealsTable} (req : Request) (w : World) :
  onlyRead w (GET_users req w).1
  ∧ onlyRead w (GET_users_id req w).1
  ∧ onlyRead w (GET_users_metrics req w).1
  ∧ onlyRead w (GET_users_summary req w).1
  ∧ onlyRead w (GET_meals req w).1
  ∧ onlyRead w (GET_meals_id req w).1
  ∧ onlyRead w (GET_meals_summary req w).1.
Proof.
  unfold GET_users, GET_users_id, GET_users_metrics, GET_users_summary,
    GET_meals, GET_meals_id, GET_meals_summary, withPreHandler,
    withPreHandlerListing.
  destruct (checkSessionIdExists req); [by repeat split|].
  repeat split;
    first [apply listUsers_onlyRead | apply getUser_onlyRead
          | apply getMetrics_onlyRead | apply usersSummary_onlyRead
          | apply listMeals_onlyRead | apply getMeal_onlyRead
          | apply mealsSummary_onlyRead].
Qed.

Section MonadFacts.

Lemma bind_val {A B} (c : M A) (k : A → M B) w w1 a :
  c w = (w1, Val a) → bind c k w = k a w1.
Proof. intros Hc. unfold bind. by rewrite Hc. Qed.

Lemma bind_thrown {A B} (c : M A) (k : A → M B) w w1 e :
  c w = (w1, Thrown e) → bind c k w = (w1, Thrown e).
Proof. intros Hc. unfold bind. by rewrite Hc. Qed.

Lemma head_filter_None {A} (f : A → bool) (l : list A) :
  head (List.filter f l) = None ↔ ∀ x, x ∈ l → f x = false.
Proof.
  split.
  - intros Hhead x Hx. destruct (f x) eqn:Hf; [exfalso|done].
    assert (In x (List.filter f l)) as Hin
      by (apply filter_In; split; [by apply list_elem_of_In|done]).
    destruct (List.filter f l); [done|discriminate Hhead].
  - intros Hnone. by rewrite filter_none.
Qed.

End MonadFacts.

Section MoreRegistrationFacts.

Context `{Platform}.

(** Validation reads the body only: it leaves the world alone. *)
Lemma parseUserBody_world bdy w : (parseUserBody bdy w).1 = w.
Proof.
  unfold parseUserBody, zEmail, zString, zNumber. crunch_handler.
Qed.

Lemma parseMealBody_world bdy w : (parseMealBody bdy w).1 = w.
Proof. unfold parseMealBody, zString, zBoolean. crunch_handler. Qed.

Lemma parseMealParams_world req w : (parseMealParams req w).1 = w.
Proof. unfold parseMealParams, zUuid, zString. crunch_handler. Qed.

Lemma parseUserBody_eq bdy w r :
  (parseUserBody bdy w).2 = r → parseUserBody bdy w = (w, r).
Proof.
  intros <-. pose proof (parseUserBody_world bdy w) as Hw.
  destruct (parseUserBody bdy w) as [w1 r]. cbn in *. by subst.
Qed.

Lemma createUser_invalid req w e :
  (parseUserBody (body req) w).2 = Thrown e →
  createUser req w = (w, Val (Sent 500 internalError)).
Proof.
  intros Hp%parseUserBody_eq. unfold createUser, tryCatch.
  by rewrite (bind_thrown _ _ _ _ _ Hp).
Qed.

Lemma createUser_taken req w b u :
  (parseUserBody (body req) w).2 = Val b →
  head (List.filter (λ u, String.eqb (u_email u) (b_email b)) (tbl_users (store w)))
  = Some u →
  createUser req w
  = (afterQueries w [SelectUserByEmail (b_email b)],
     Val (Sent 400 (BError "Este email já está vinculado à um usuário"))).
Proof.
  intros Hp%parseUserBody_eq Htaken. unfold createUser, tryCatch.
  rewrite (bind_val _ _ _ _ _ Hp). crunch_handler.
Qed.

Lemma createUser_new req w b :
  (parseUserBody (body req) w).2 = Val b →
  head (List.filter (λ u, String.eqb (u_email u) (b_email b)) (tbl_users (store w)))
  = None →
  createUser req w
  = (mkWorld
       (mkStore (tbl_users (store w) ++ [newUserRow req w b]) (tbl_meals (store w)))
       (issued w ++ [SelectUserByEmail (b_email b); InsertUser (newUserRow req w b)])
       (if cookieMissing (cookies_sessionId req)
        then Some (tokenStored req w) else replyCookie w)
       (if cookieMissing (cookies_sessionId req)
        then S (S (drawn w)) else S (drawn w)),
     Val (Sent 201 (BMessage "Usuário cadastrado com sucesso"))).
Proof.
  intros Hp%parseUserBody_eq Hnew. unfold createUser, tryCatch.
  rewrite (bind_val _ _ _ _ _ Hp).
  unfold newUserRow, tokenStored, sessionForRegistration.
  crunch_handler; by rewrite <- app_assoc.
Qed.

End MoreRegistrationFacts.

Section RegistrationOutcomes.

Context `{Platform}.

Lemma head_filter_Some {A} (f : A → bool) (l : list A) x :
  x ∈ l → f x = true → ∃ y, head (List.filter f l) = Some y.
Proof.
  intros Hx Hf. destruct (head (List.filter f l)) as [y|] eqn:Hhead; [eauto|].
  rewrite (proj1 (head_filter_None f l) Hhead x Hx) in Hf. discriminate.
Qed.

(** What the schema of [POST /users] and [PUT /users/:id] accepts. *)
Lemma parseUserBody_spec bdy w b :
  (parseUserBody bdy w).2 = Val b
  ↔ bdy !! "name" = Some (Js.Str (b_name b))
    ∧ bdy !! "email" = Some (Js.Str (b_email b))
    ∧ isEmail (b_email b) = true
    ∧ bdy !! "address" = Some (Js.Str (b_address b))
    ∧ bdy !! "weight" = Some (Js.Number (Js.Num (b_weight b)))
    ∧ bdy !! "height" = Some (Js.Number (Js.Num (b_height b))).
Proof.
  unfold parseUserBody, zEmail, zString, zNumber. destruct b. split.
  - crunch_handler. by intros [= -> -> -> -> ->].
  - cbn. intros (-> & -> & Hemail & -> & -> & ->). crunch_handler.
Qed.

Lemma emails_after_registration req w :
  userEmails (createUser req w).1 = userEmails w
  ∨ ∃ b, userEmails (createUser req w).1 = userEmails w ++ [b_email b]
         ∧ b_email b ∉ userEmails w.
Proof.
  destruct (parseUserBody (body req) w).2 as [b|e] eqn:Hp.
  - destruct (head (List.filter (λ u, String.eqb (u_email u) (b_email b))
                      (tbl_users (store w)))) as [u|] eqn:Hhead.
    + left. by rewrite (createUser_taken req w b u Hp Hhead).
    + right. exists b. rewrite (createUser_new req w b Hp Hhead).
      unfold userEmails. cbn. rewrite map_app. split; [done|].
      intros (u & Hemail & Hu)%list_elem_of_fmap.
      apply (proj1 (head_filter_None _ _) Hhead) in Hu.
      apply String.eqb_neq in Hu. congruence.
  - left. by rewrite (createUser_invalid req w e Hp).
Qed.

Lemma usersBySession_result sid w :
  usersBySession (Some sid) w
  = (afterQueries w [SelectUsersBySession sid],
     Val (List.filter (hasSession sid) (tbl_users (store w)))).
Proof. reflexivity. Qed.

Lemma listUsers_result req w sid :
  cookies_sessionId req = Some sid →
  listUsers req w
  = (afterQueries w [SelectUsersBySession sid],
     Val (Listed (LUsers (List.filter (hasSession sid) (tbl_users (store w)))))).
Proof. intros Hc. unfold listUsers. by rewrite Hc. Qed.

End RegistrationOutcomes.

(** X8. A registration whose e-mail is already that of a stored user is
    answered 400 and stores nothing: the tables are untouched, no cookie is
    set and no uuid is drawn. *)
Theorem registration_rejects_known_email `{Platform} (req : Request) (w : World)
    (b : UserBody) (u : UserRow) :
  (parseUserBody (body req) w).2 = Val b →
  u ∈ tbl_users (store w) →
  u_email u = b_email b →
  (POST_users req w).2
  = Val (Sent 400 (BError "Este email já está vinculado à um usuário"))
  ∧ onlyRead w (POST_users req w).1.
Proof.
  intros Hp Hu Hemail. unfold POST_users.
  destruct (head_filter_Some (λ u, String.eqb (u_email u) (b_email b))
              (tbl_users (store w)) u Hu) as [u' Hhead];
    [by apply String.eqb_eq|].
  by rewrite (createUser_taken req w b u' Hp Hhead).
Qed.

Lemma registration_rejects_known_email_witness :
  let P := platformWith numericCounts false in
  let req := mkRequest None Js.Undefined
               (userBody "Ana B" "ana@example.com" "Rua Z" 55 160) in
  let w := worldOf [ana; bia] [salada] in
  (@POST_users P req w).2
  = Val (Sent 400 (BError "Este email já está vinculado à um usuário"))
  ∧ onlyRead w (@POST_users P req w).1.
Proof.
  apply (@registration_rejects_known_email (platformWith numericCounts false)
           (mkRequest None Js.Undefined
              (userBody "Ana B" "ana@example.com" "Rua Z" 55 160))
           (worldOf [ana; bia] [salada])
           (mkUserBody "Ana B" "ana@example.com" "Rua Z" 55 160) ana).
  - vm_compute. reflexivity.
  - by left.
  - reflexivity.
Defined.

(** X9. A registration is answered 500, with the world exactly as it was
    (no query issued, nothing stored), unless its body has a string [name], a
    string [email] that passes the e-mail pattern, a string [address] and
    numbers [weight] and [height]. *)
Theorem registration_rejects_malformed_body `{Platform} (req : Request) (w : World) :
  (∀ b, ¬ (body req !! "name" = Some (Js.Str (b_name b))
           ∧ body req !! "email" = Some (Js.Str (b_email b))
           ∧ isEmail (b_email b) = true
           ∧ body req !! "address" = Some (Js.Str (b_address b))
           ∧ body req !! "weight" = Some (Js.Number (Js.Num (b_weight b)))
           ∧ body req !! "height" = Some (Js.Number (Js.Num (b_height b))))) →
  POST_users req w = (w, Val (Sent 500 internalError)).
Proof.
  intros Hbad. unfold POST_users.
  destruct (parseUserBody (body req) w).2 as [b|e] eqn:Hp.
  - apply parseUserBody_spec in Hp. by destruct (Hbad b).
  - by apply (createUser_invalid req w e).
Qed.

Lemma registration_rejects_malformed_body_witness :
  let P := platformWith numericCounts false in
  let req := mkRequest None Js.Undefined
               (userBody "Caio" "caio.example.com" "Rua C" 80 180) in
  let w := worldOf [ana; bia] [salada] in
  @POST_users P req w = (w, Val (Sent 500 internalError)).
Proof.
  apply (@registration_rejects_malformed_body (platformWith numericCounts false)).
  intros [name email address weight height] (_ & Hemail & Hpattern & _).
  cbn [b_email] in Hemail, Hpattern.
  vm_compute in Hemail. injection Hemail as <-.
  vm_compute in Hpattern. discriminate Hpattern.
Defined.

(** X10. A registration with a well-formed body and an e-mail no stored
    user has is answered 201 and appends exactly one user: the body's
    fields, a new uuid as id, and as session token the request's cookie or,
    without a usable cookie, another new uuid, which is then also set as the
    reply's cookie.  Nothing else changes; two queries are issued. *)
Theorem registration_stores_the_new_user `{Platform} (req : Request) (w : World)
    (b : UserBody) :
  (parseUserBody (body req) w).2 = Val b →
  (∀ u, u ∈ tbl_users (store w) → u_email u ≠ b_email b) →
  POST_users req w
  = (mkWorld
       (mkStore (tbl_users (store w) ++ [newUserRow req w b]) (tbl_meals (store w)))
       (issued w ++ [SelectUserByEmail (b_email b); InsertUser (newUserRow req w b)])
       (if cookieMissing (cookies_sessionId req)
        then Some (tokenStored req w) else replyCookie w)
       (if cookieMissing (cookies_sessionId req)
        then S (S (drawn w)) else S (drawn w)),
     Val (Sent 201 (BMessage "Usuário cadastrado com sucesso"))).
Proof.
  intros Hp Hnew. apply (createUser_new req w b Hp).
  apply head_filter_None. intros u Hu. by apply String.eqb_neq, Hnew.
Qed.

Lemma registration_stores_the_new_user_witness :
  let P := platformWith numericCounts false in
  let req := mkRequest None Js.Undefined newcomer in
  let w := worldOf [ana; bia] [salada] in
  @POST_users P req w
  = (mkWorld
       (mkStore [ana; bia;
                 mkUser "uuid-1" "Caio" "caio@example.com" "Rua C" 80 180 "uuid-0"]
          [salada])
       [SelectUserByEmail "caio@example.com";
        InsertUser (mkUser "uuid-1" "Caio" "caio@example.com" "Rua C" 80 180 "uuid-0")]
       (Some "uuid-0") 2,
     Val (Sent 201 (BMessage "Usuário cadastrado com sucesso"))).
Proof.
  apply (@registration_stores_the_new_user (platformWith numericCounts false)
           (mkRequest None Js.Undefined newcomer) (worldOf [ana; bia] [salada])
           (mkUserBody "Caio" "caio@example.com" "Rua C" 80 180)).
  - vm_compute. reflexivity.
  - intros u Hu. apply list_elem_of_In in Hu. cbn in Hu.
    destruct Hu as [<-|[<-|[]]]; discriminate.
Defined.

(** X11. Registration keeps e-mails distinct: if no two stored users share
    an e-mail before a [POST /users], none do after it, whatever the request
    and its answer. *)
Theorem registration_keeps_emails_distinct `{Platform} (req : Request) (w : World) :
  NoDup (userEmails w) → NoDup (userEmails (POST_users req w).1).
Proof.
  intros Hnd. unfold POST_users.
  destruct (emails_after_registration req w) as [->|(b & -> & Hfresh)]; [done|].
  by apply NoDup_snoc.
Qed.

Lemma registration_keeps_emails_distinct_witness :
  let P := platformWith numericCounts false in
  NoDup (userEmails
           (@POST_users P (mkRequest (Some "s1") Js.Undefined newcomer)
              (worldOf [ana; bia] [])).1).
Proof.
  apply (@registration_keeps_emails_distinct (platformWith numericCounts false)).
  apply (bool_decide_unpack _). vm_compute. reflexivity.
Defined.

(** X12. After a registration answered 201, [GET /users] with the session
    token it stored lists the users that already had that token followed by
    the new user. *)
Theorem registered_user_is_listed `{Platform} (req req' : Request)
    (w : World) (payload : Body) :
  (POST_users req w).2 = Val (Sent 201 payload) →
  cookies_sessionId req' = Some (tokenStored req w) →
  ∃ row,
    tbl_users (store (POST_users req w).1) = tbl_users (store w) ++ [row]
    ∧ session_id row = tokenStored req w
    ∧ (listUsers req' (POST_users req w).1).2
      = Val (Listed (LUsers
               (List.filter (hasSession (tokenStored req w)) (tbl_users (store w))
                ++ [row]))).
Proof.
  intros Hok Hc. unfold POST_users in *.
  destruct (createUser_success req w payload Hok) as (row & Husers & Htoken).
  exists row. split; [done|]. split; [done|].
  rewrite (listUsers_result req' _ _ Hc). cbn [snd]. rewrite Husers.
  rewrite List.filter_app. cbn. unfold hasSession at 2.
  by rewrite Htoken, String.eqb_refl.
Qed.

Lemma registered_user_is_listed_witness :
  let P := platformWith numericCounts false in
  let w1 := (@POST_users P (mkRequest None Js.Undefined newcomer)
               (worldOf [ana; bia] [])).1 in
  ∃ row,
    tbl_users (store w1) = [ana; bia] ++ [row]
    ∧ session_id row = "uuid-0"
    ∧ (listUsers (withCookie "uuid-0") w1).2 = Val (Listed (LUsers ([] ++ [row]))).
Proof.
  exact (@registered_user_is_listed (platformWith numericCounts false)
           (mkRequest None Js.Undefined newcomer) (withCookie "uuid-0")
           (worldOf [ana; bia] []) (BMessage "Usuário cadastrado com sucesso")
           eq_refl eq_refl).
Defined.

Section UserRouteFacts.

Context `{Platform}.

Lemma getUser_result req w sid id :
  cookies_sessionId req = Some sid →
  params_id req = Js.Str id →
  getUser req w
  = (w, match head (List.filter (userMatches sid (Js.Str id)) (tbl_users (store w))) with
        | Some user => Val (Listed (LUser user))
        | None => Val (Plain (Sent 404 userNotFoundMessage))
        end).
Proof.
  intros Hc Hid. unfold getUser. rewrite Hc, Hid. crunch_handler.
Qed.

Lemma head_filter_elem {A} (f : A → bool) (l : list A) x :
  head (List.filter f l) = Some x → x ∈ l.
Proof.
  induction l as [|y l IH]; [done|]. cbn. destruct (f y).
  - intros [= ->]. by left.
  - intros Hx. right. by apply IH.
Qed.

Lemma userMatches_spec sid id u :
  userMatches sid (Js.Str id) u = true ↔ session_id u = sid ∧ u_id u = id.
Proof.
  unfold userMatches, hasSession, cellIs. cbn.
  by rewrite andb_true_iff, !String.eqb_eq.
Qed.

Lemma updateUser_result req w b sid :
  (parseUserBody (body req) w).2 = Val b →
  cookies_sessionId req = Some sid →
  params_id req ≠ Js.Undefined →
  updateUser req w
  = (mkWorld
       (mkStore (map (λ u, if userTargeted req u then withBody b u else u)
                   (tbl_users (store w)))
          (tbl_meals (store w)))
       (issued w) (replyCookie w) (drawn w),
     if length (List.filter (userTargeted req) (tbl_users (store w))) =? 0
     then Val (Sent 404 userNotFoundMessage)
     else Val (Sent 200 (BMessage "Usuário atualizado com sucesso"))).
Proof.
  intros Hp%parseUserBody_eq Hc Hid. unfold updateUser, tryCatch, userTargeted.
  rewrite (bind_val _ _ _ _ _ Hp), Hc.
  destruct (params_id req); [done|..]; crunch_handler.
Qed.

Lemma updateUser_failed req w :
  (∀ b, (parseUserBody (body req) w).2 ≠ Val b)
  ∨ cookies_sessionId req = None ∨ params_id req = Js.Undefined →
  updateUser req w = (w, Val (Sent 500 internalError)).
Proof.
  intros Hbad. unfold updateUser, tryCatch.
  destruct (parseUserBody (body req) w).2 as [b|e] eqn:Hp.
  - apply parseUserBody_eq in Hp. rewrite (bind_val _ _ _ _ _ Hp).
    destruct Hbad as [Hbad|[Hc|Hid]]; [by destruct (Hbad b)| |].
    + rewrite Hc. crunch_handler.
    + rewrite Hid. crunch_handler.
  - apply parseUserBody_eq in Hp. by rewrite (bind_thrown _ _ _ _ _ Hp).
Qed.

Lemma map_targeted_ids {B} (f : UserRow → B) (g : UserRow → UserRow)
    (sel : UserRow → bool) (users : list UserRow) :
  (∀ u, f (g u) = f u) →
  map f (map (λ u, if sel u then g u else u) users) = map f users.
Proof.
  intros Hfg. rewrite map_map. apply map_ext. intros u.
  by destruct (sel u).
Qed.

Lemma deleteUser_result req w :
  deleteUser req w
  = (mkWorld
       (mkStore (List.filter (λ u, negb (userTargeted req u)) (tbl_users (store w)))
          (tbl_meals (store w)))
       (issued w) (replyCookie w) (drawn w),
     match cookies_sessionId req, params_id req with
     | None, _ | _, Js.Undefined => Val (Sent 500 internalError)
     | Some _, _ =>
         if length (List.filter (userTargeted req) (tbl_users (store w))) =? 0
         then Val (Sent 404 userNotFoundMessage)
         else Val (Sent 200 (BMessage "Usuário excluído com sucesso"))
     end).
Proof.
  assert (∀ l : list UserRow, List.filter (λ _, true) l = l) as Hall.
  { induction l as [|u l IH]; [done|]. cbn. by rewrite IH. }
  unfold deleteUser, userTargeted.
  destruct w as [[users meals] qs ck k].
  destruct (cookies_sessionId req) as [sid|]; [|cbn; by rewrite Hall].
  destruct (params_id req) eqn:Hid; crunch_handler.
  unfold userMatches, cellIs. cbn.
  rewrite (filter_ext _ (λ _, true)); [by rewrite Hall|].
  intros u. by rewrite andb_false_r.
Qed.

End UserRouteFacts.

(** X13. [GET /users], on a request the middleware lets through with the
    cookie [sid], returns exactly the stored users whose [session_id] is
    [sid], in table order; a session no user has gives the empty list, not
    an error. *)
Theorem list_users_returns_session_users `{Platform} (req : Request) (w : World)
    (sid : string) :
  checkSessionIdExists req = None →
  cookies_sessionId req = Some sid →
  (GET_users req w).2
  = Val (Listed (LUsers (List.filter (hasSession sid) (tbl_users (store w)))))
  ∧ ((∀ u, u ∈ tbl_users (store w) → session_id u ≠ sid) →
     (GET_users req w).2 = Val (Listed (LUsers []))).
Proof.
  intros Hpre Hc. unfold GET_users, withPreHandlerListing. rewrite Hpre.
  rewrite (listUsers_result req w sid Hc). split; [done|].
  intros Hnone. cbn [snd]. rewrite filter_none; [done|].
  intros u Hu. by apply String.eqb_neq, Hnone.
Qed.

Lemma list_users_witness :
  let P := platformWith numericCounts false in
  (@GET_users P (withCookie "s2") (worldOf [ana; bia] [])).2
  = Val (Listed (LUsers [bia]))
  ∧ (@GET_users P (withCookie "s9") (worldOf [ana; bia] [])).2
    = Val (Listed (LUsers [])).
Proof.
  split.
  - exact (proj1 (@list_users_returns_session_users
                    (platformWith numericCounts false) (withCookie "s2")
                    (worldOf [ana; bia] []) "s2" eq_refl eq_refl)).
  - apply (proj2 (@list_users_returns_session_users
                    (platformWith numericCounts false) (withCookie "s9")
                    (worldOf [ana; bia] []) "s9" eq_refl eq_refl)).
    intros u Hu. apply list_elem_of_In in Hu. cbn in Hu.
    destruct Hu as [<-|[<-|[]]]; discriminate.
Defined.

(** X14. [GET /users/:id] shows a user only if that user is stored with the
    request's session and the requested id, and it does show one whenever
    such a user is stored; otherwise it answers 404.  It changes nothing. *)
Theorem get_user_keeps_to_session (req : Request) (w : World) (sid id : string) :
  cookies_sessionId req = Some sid →
  params_id req = Js.Str id →
  onlyRead w (getUser req w).1
  ∧ (∀ u, userShown (getUser req w).2 = Some u →
          u ∈ tbl_users (store w) ∧ session_id u = sid ∧ u_id u = id)
  ∧ ((∃ u, u ∈ tbl_users (store w) ∧ session_id u = sid ∧ u_id u = id) →
     ∃ u, (getUser req w).2 = Val (Listed (LUser u)))
  ∧ ((∀ u, u ∈ tbl_users (store w) → session_id u = sid → u_id u ≠ id) →
     (getUser req w).2 = Val (Plain (Sent 404 userNotFoundMessage))).
Proof.
  intros Hc Hid. rewrite (getUser_result req w sid id Hc Hid). cbn [fst snd].
  split; [done|].
  destruct (head (List.filter (userMatches sid (Js.Str id)) (tbl_users (store w))))
    as [found|] eqn:Hhead.
  - split; [|split].
    + intros u [= <-]. pose proof (head_filter_sat _ _ _ Hhead) as Hm.
      apply userMatches_spec in Hm. split; [|done].
      by eapply head_filter_elem.
    + eauto.
    + intros Hnone. pose proof (head_filter_sat _ _ _ Hhead) as Hm.
      apply userMatches_spec in Hm as [Hs Hi]. exfalso.
      apply (Hnone found); [|done|done]. by eapply head_filter_elem.
  - split; [done|]. split; [|done].
    intros (u & Hu & Hs & Hi).
    apply (proj1 (head_filter_None _ _) Hhead) in Hu.
    assert (userMatches sid (Js.Str id) u = true) by (by apply userMatches_spec).
    congruence.
Qed.

Lemma get_user_witness :
  let req := mkRequest (Some "s1") (Js.Str "u2") ∅ in
  (getUser req (worldOf [ana; bia] [])).2
  = Val (Plain (Sent 404 userNotFoundMessage)).
Proof.
  apply (get_user_keeps_to_session (mkRequest (Some "s1") (Js.Str "u2") ∅)
           (worldOf [ana; bia] []) "s1" "u2" eq_refl eq_refl).
  intros u Hu Hs. apply list_elem_of_In in Hu. cbn in Hu.
  destruct Hu as [<-|[<-|[]]]; discriminate.
Defined.

Section UserWriteFacts.

Context `{Platform}.

Lemma untargeted_map (sel : UserRow → bool) (g : UserRow → UserRow)
    (users : list UserRow) :
  length (List.filter sel users) = 0 →
  map (λ u, if sel u then g u else u) users = users.
Proof.
  induction users as [|u users IH]; [done|]. cbn.
  destruct (sel u); cbn; [lia|]. intros Hlen. by rewrite IH.
Qed.

Lemma untargeted_filter (sel : UserRow → bool) (users : list UserRow) :
  length (List.filter sel users) = 0 →
  List.filter (λ u, negb (sel u)) users = users.
Proof.
  induction users as [|u users IH]; [done|]. cbn.
  destruct (sel u); cbn; [lia|]. intros Hlen. by rewrite IH.
Qed.

Lemma lookup_map {A B} (f : A → B) (l : list A) i x :
  l !! i = Some x → map f l !! i = Some (f x).
Proof.
  revert i. induction l as [|y l IH]; intros [|i]; cbn; try done.
  - by intros [= ->].
  - apply IH.
Qed.

Lemma some_targeted (sel : UserRow → bool) (users : list UserRow) :
  (length (List.filter sel users) =? 0) = false ↔ ∃ u, u ∈ users ∧ sel u = true.
Proof.
  rewrite Nat.eqb_neq. split.
  - intros Hlen. destruct (List.filter sel users) as [|u rest] eqn:Hf; [done|].
    exists u. assert (In u (List.filter sel users)) as Hin by (rewrite Hf; by left).
    apply filter_In in Hin as [Hin Hs]. split; [by apply list_elem_of_In|done].
  - intros (u & Hu & Hs) Hlen.
    assert (In u (List.filter sel users)) as Hin
      by (apply filter_In; split; [by apply list_elem_of_In|done]).
    destruct (List.filter sel users); [done|discriminate Hlen].
Qed.

(** The world after [PUT /users/:id], in every case. *)
Lemma updateUser_world req w :
  (updateUser req w).1 = w
  ∨ ∃ b, (updateUser req w).1
         = mkWorld
             (mkStore (map (λ u, if userTargeted req u then withBody b u else u)
                         (tbl_users (store w)))
                (tbl_meals (store w)))
             (issued w) (replyCookie w) (drawn w).
Proof.
  destruct (parseUserBody (body req) w).2 as [b|e] eqn:Hp.
  - destruct (cookies_sessionId req) as [sid|] eqn:Hc.
    + assert (params_id req = Js.Undefined ∨ params_id req ≠ Js.Undefined)
        as [Hid|Hid] by (destruct (params_id req); auto).
      * left. rewrite updateUser_failed; [done|]. by right; right.
      * right. exists b. by rewrite (updateUser_result req w b sid Hp Hc Hid).
    + left. rewrite updateUser_failed; [done|]. by right; left.
  - left. rewrite updateUser_failed; [done|]. left. intros b. congruence.
Qed.

End UserWriteFacts.

(** X15. Whatever the request, [PUT /users/:id] leaves the ids and the
    session tokens of all users, and the meals table, as they were, and it
    leaves every row that is not of the request's session and id exactly as
    it was, at its place in the table. *)
Theorem update_user_keeps_ids_tokens_and_other_rows `{Platform}
    (req : Request) (w : World) :
  let w' := (PUT_users_id req w).1 in
  userIds w' = userIds w
  ∧ sessionTokens w' = sessionTokens w
  ∧ tbl_meals (store w') = tbl_meals (store w)
  ∧ ∀ i u, tbl_users (store w) !! i = Some u → userTargeted req u = false →
           tbl_users (store w') !! i = Some u.
Proof.
  unfold PUT_users_id, withPreHandler.
  destruct (checkSessionIdExists req); [done|].
  destruct (updateUser_world req w) as [->|[b ->]]; [done|].
  unfold userIds, sessionTokens. cbn.
  rewrite !map_targeted_ids by done. repeat split.
  intros i u Hu Hsel.
  rewrite (lookup_map _ _ i u Hu). by rewrite Hsel.
Qed.

Lemma update_user_keeps_witness :
  let P := platformWith numericCounts false in
  let req := mkRequest (Some "s2") (Js.Str "u2")
               (userBody "Beatriz" "bia@example.com" "Rua B, 2" 68 170) in
  let w := worldOf [ana; bia] [pizza] in
  let w' := (@PUT_users_id P req w).1 in
  userIds w' = userIds w
  ∧ sessionTokens w' = sessionTokens w
  ∧ tbl_users (store w') !! 0 = Some ana.
Proof.
  destruct (@update_user_keeps_ids_tokens_and_other_rows
              (platformWith numericCounts false)
              (mkRequest (Some "s2") (Js.Str "u2")
                 (userBody "Beatriz" "bia@example.com" "Rua B, 2" 68 170))
              (worldOf [ana; bia] [pizza])) as (Hids & Htokens & _ & Hrows).
  split; [exact Hids|]. split; [exact Htokens|].
  exact (Hrows 0 ana eq_refl eq_refl).
Defined.

(** X16. A well-formed [PUT /users/:id] with a session cookie and an id
    writes the body's five fields into every user of that session and id, and
    answers 200 when there is such a user and 404 when there is none. *)
Theorem update_user_writes_the_body `{Platform} (req : Request) (w : World)
    (b : UserBody) (sid id : string) :
  checkSessionIdExists req = None →
  (parseUserBody (body req) w).2 = Val b →
  cookies_sessionId req = Some sid →
  params_id req = Js.Str id →
  let w' := (PUT_users_id req w).1 in
  (∀ i u, tbl_users (store w) !! i = Some u →
          session_id u = sid → u_id u = id →
          tbl_users (store w') !! i = Some (withBody b u))
  ∧ ((∃ u, u ∈ tbl_users (store w) ∧ session_id u = sid ∧ u_id u = id) →
     (PUT_users_id req w).2
     = Val (Sent 200 (BMessage "Usuário atualizado com sucesso")))
  ∧ ((∀ u, u ∈ tbl_users (store w) → session_id u = sid → u_id u ≠ id) →
     (PUT_users_id req w).2 = Val (Sent 404 userNotFoundMessage)
     ∧ store (PUT_users_id req w).1 = store w).
Proof.
  intros Hpre Hp Hc Hid. unfold PUT_users_id, withPreHandler. rewrite Hpre.
  assert (params_id req ≠ Js.Undefined) as Hdef by (by rewrite Hid).
  rewrite (updateUser_result req w b sid Hp Hc Hdef). cbn [fst snd store tbl_users].
  assert (∀ u, userTargeted req u = true ↔ session_id u = sid ∧ u_id u = id) as Hsel.
  { intros u. unfold userTargeted. rewrite Hc, Hid. apply userMatches_spec. }
  split; [|split].
  - intros i u Hu Hs Hi.
    rewrite (lookup_map _ _ i u Hu). by rewrite (proj2 (Hsel u)).
  - intros (u & Hu & Hs & Hi).
    destruct (length _ =? 0) eqn:Hlen; [|done].
    assert ((length (List.filter (userTargeted req) (tbl_users (store w))) =? 0) = false);
      [|congruence].
    apply some_targeted. exists u. split; [done|]. by apply Hsel.
  - intros Hnone.
    assert (length (List.filter (userTargeted req) (tbl_users (store w))) = 0) as Hlen.
    { rewrite filter_none; [done|]. intros u Hu.
      destruct (userTargeted req u) eqn:Ht; [|done].
      apply Hsel in Ht as [Hs Hi]. by destruct (Hnone u Hu Hs). }
    rewrite Hlen. cbn. rewrite untargeted_map by done. by destruct (store w).
Qed.

Lemma update_user_witness :
  let P := platformWith numericCounts false in
  let req := mkRequest (Some "s2") (Js.Str "u2")
               (userBody "Beatriz" "bia@example.com" "Rua B, 2" 68 170) in
  let r := @PUT_users_id P req (worldOf [ana; bia] [pizza]) in
  tbl_users (store r.1) !! 1
  = Some (mkUser "u2" "Beatriz" "bia@example.com" "Rua B, 2" 68 170 "s2")
  ∧ r.2 = Val (Sent 200 (BMessage "Usuário atualizado com sucesso")).
Proof.
  destruct (@update_user_writes_the_body (platformWith numericCounts false)
              (mkRequest (Some "s2") (Js.Str "u2")
                 (userBody "Beatriz" "bia@example.com" "Rua B, 2" 68 170))
              (worldOf [ana; bia] [pizza])
              (mkUserBody "Beatriz" "bia@example.com" "Rua B, 2" 68 170)
              "s2" "u2" eq_refl) as (Hrow & Hok & _);
    [vm_compute; reflexivity|reflexivity|reflexivity|].
  split.
  - exact (Hrow 1 bia eq_refl eq_refl eq_refl).
  - apply Hok. exists bia. split; [by right; left|done].
Defined.

(** X17. [DELETE /users/:id] removes exactly the users of the request's
    session and id, answering 200 when there was one and 404 when there was
    none, and it leaves the meals table as it was: the meals of a deleted
    user stay stored. *)
Theorem delete_user_removes_targeted_rows_only `{Platform} (req : Request)
    (w : World) (sid id : string) :
  checkSessionIdExists req = None →
  cookies_sessionId req = Some sid →
  params_id req = Js.Str id →
  let w' := (DELETE_users_id req w).1 in
  tbl_users (store w')
  = List.filter (λ u, negb (String.eqb (session_id u) sid && String.eqb (u_id u) id))
      (tbl_users (store w))
  ∧ tbl_meals (store w') = tbl_meals (store w)
  ∧ ((∃ u, u ∈ tbl_users (store w) ∧ session_id u = sid ∧ u_id u = id) →
     (DELETE_users_id req w).2
     = Val (Sent 200 (BMessage "Usuário excluído com sucesso")))
  ∧ ((∀ u, u ∈ tbl_users (store w) → session_id u = sid → u_id u ≠ id) →
     (DELETE_users_id req w).2 = Val (Sent 404 userNotFoundMessage)
     ∧ store (DELETE_users_id req w).1 = store w).
Proof.
  intros Hpre Hc Hid. unfold DELETE_users_id, withPreHandler. rewrite Hpre.
  rewrite (deleteUser_result req w). cbn [fst snd store tbl_users tbl_meals].
  assert (∀ u, userTargeted req u = true ↔ session_id u = sid ∧ u_id u = id) as Hsel.
  { intros u. unfold userTargeted. rewrite Hc, Hid. apply userMatches_spec. }
  rewrite Hc, Hid. split; [|split; [done|split]].
  - apply filter_ext. intros u. unfold userTargeted. by rewrite Hc, Hid.
  - intros (u & Hu & Hs & Hi).
    destruct (length _ =? 0) eqn:Hlen; [|done].
    assert ((length (List.filter (userTargeted req) (tbl_users (store w))) =? 0) = false);
      [|congruence].
    apply some_targeted. exists u. split; [done|]. by apply Hsel.
  - intros Hnone.
    assert (length (List.filter (userTargeted req) (tbl_users (store w))) = 0) as Hlen.
    { rewrite filter_none; [done|]. intros u Hu.
      destruct (userTargeted req u) eqn:Ht; [|done].
      apply Hsel in Ht as [Hs Hi]. by destruct (Hnone u Hu Hs). }
    rewrite Hlen. cbn. rewrite untargeted_filter by done. by destruct (store w).
Qed.

Lemma delete_user_witness :
  let P := platformWith numericCounts false in
  let req := mkRequest (Some "s1") (Js.Str "u1") ∅ in
  let r := @DELETE_users_id P req (worldOf [ana; bia] [salada; pizza]) in
  tbl_users (store r.1) = [bia]
  ∧ tbl_meals (store r.1) = [salada; pizza]
  ∧ r.2 = Val (Sent 200 (BMessage "Usuário excluído com sucesso")).
Proof.
  destruct (@delete_user_removes_targeted_rows_only
              (platformWith numericCounts false)
              (mkRequest (Some "s1") (Js.Str "u1") ∅)
              (worldOf [ana; bia] [salada; pizza]) "s1" "u1"
              eq_refl eq_refl eq_refl) as (Husers & Hmeals & Hok & _).
  split; [exact Husers|]. split; [exact Hmeals|].
  apply Hok. exists ana. split; [by left|done].
Defined.

Section MealWriteFacts.

Context `{Platform} `{MealsTable}.

Lemma parseMealBody_eq bdy w r :
  (parseMealBody bdy w).2 = r → parseMealBody bdy w = (w, r).
Proof.
  intros <-. pose proof (parseMealBody_world bdy w) as Hw.
  destruct (parseMealBody bdy w) as [w1 r]. cbn in *. by subst.
Qed.

(** Validation does not look at the world. *)
Lemma parseMealBody_any_world bdy w w1 :
  (parseMealBody bdy w1).2 = (parseMealBody bdy w).2.
Proof. unfold parseMealBody, zString, zBoolean. crunch_handler. Qed.

(** What the schema of [POST /meals] and [PUT /meals/:id] accepts. *)
Lemma parseMealBody_spec bdy w b :
  (parseMealBody bdy w).2 = Val b
  ↔ bdy !! "name" = Some (Js.Str (b_mealName b))
    ∧ bdy !! "description" = Some (Js.Str (b_description b))
    ∧ bdy !! "isOnTheDiet" = Some (Js.Bool (b_isOnTheDiet b)).
Proof.
  unfold parseMealBody, zString, zBoolean. destruct b. split.
  - crunch_handler. by intros [= -> -> ->].
  - cbn. intros (-> & -> & ->). crunch_handler.
Qed.

Lemma parseMealParams_result req w id :
  params_id req = Js.Str id → isUuid id = true →
  parseMealParams req w = (w, Val id).
Proof.
  intros Hid Huuid. unfold parseMealParams, zUuid, zString. rewrite Hid.
  crunch_handler.
Qed.

Lemma createMeal_result req w sid user others b :
  cookies_sessionId req = Some sid →
  List.filter (hasSession sid) (tbl_users (store w)) = user :: others →
  (parseMealBody (body req) w).2 = Val b →
  createMeal req w
  = (mkWorld
       (mkStore (tbl_users (store w)) (tbl_meals (store w) ++ [newMealRow w user b]))
       (issued w ++ [SelectUsersBySession sid]) (replyCookie w) (S (drawn w)),
     Val (Sent 201 (BText "Refeição criada com sucesso"))).
Proof.
  intros Hc Husers Hp. unfold createMeal, tryCatch.
  rewrite Hc, (bind_val _ _ _ _ _ (usersBySession_result sid w)), Husers.
  cbn [head].
  rewrite <- (parseMealBody_any_world _ _ (afterQueries w [SelectUsersBySession sid]))
    in Hp.
  apply parseMealBody_eq in Hp. rewrite (bind_val _ _ _ _ _ Hp).
  reflexivity.
Qed.

Lemma createMeal_unresolved req w sid :
  cookies_sessionId req = Some sid →
  List.filter (hasSession sid) (tbl_users (store w)) = [] →
  createMeal req w
  = (afterQueries w [SelectUsersBySession sid], Val (Sent 404 userNotFound)).
Proof.
  intros Hc Husers. unfold createMeal, tryCatch.
  by rewrite Hc, (bind_val _ _ _ _ _ (usersBySession_result sid w)), Husers.
Qed.

Lemma createMeal_world req w :
  store (createMeal req w).1 = store w
  ∨ ∃ user b, resolvedUser w req = Some user
      ∧ (createMeal req w).2 = Val (Sent 201 (BText "Refeição criada com sucesso"))
      ∧ store (createMeal req w).1
        = mkStore (tbl_users (store w)) (tbl_meals (store w) ++ [newMealRow w user b]).
Proof.
  unfold resolvedUser.
  destruct (cookies_sessionId req) as [sid|] eqn:Hc.
  - destruct (List.filter (hasSession sid) (tbl_users (store w)))
      as [|user others] eqn:Husers.
    + left. by rewrite (createMeal_unresolved req w sid Hc Husers).
    + destruct (parseMealBody (body req) w).2 as [b|e] eqn:Hp.
      * right. exists user, b.
        by rewrite (createMeal_result req w sid user others b Hc Husers Hp).
      * left. unfold createMeal, tryCatch.
        rewrite Hc, (bind_val _ _ _ _ _ (usersBySession_result sid w)), Husers.
        cbn [head].
        rewrite <- (parseMealBody_any_world _ _
                      (afterQueries w [SelectUsersBySession sid])) in Hp.
        apply parseMealBody_eq in Hp. by rewrite (bind_thrown _ _ _ _ _ Hp).
  - left. unfold createMeal. rewrite Hc. crunch_handler.
Qed.

(** *** [writeRows] *)

Lemma writeRows_none sel change onlyFirst rows :
  (writeRows sel change onlyFirst rows).2 = 0
  ↔ ∀ row, row ∈ rows → sel row = false.
Proof.
  induction rows as [|row rest IH]; cbn.
  - split; [|done]. intros _ row Hrow. inversion Hrow.
  - destruct (sel row) eqn:Hsel.
    + split.
      * destruct onlyFirst; [|destruct (writeRows sel change false rest)]; done.
      * intros Hnone. rewrite (Hnone row) in Hsel by (by left). done.
    + destruct (writeRows sel change onlyFirst rest) as [rest' n]. cbn in *.
      rewrite IH. split.
      * intros Hnone r Hr. inversion Hr; subst; auto.
      * intros Hnone r Hr. apply Hnone. by right.
Qed.

Lemma writeRows_unchanged sel change onlyFirst rows :
  (writeRows sel change onlyFirst rows).2 = 0 →
  (writeRows sel change onlyFirst rows).1 = rows.
Proof.
  induction rows as [|row rest IH]; [done|]. cbn.
  destruct (sel row).
  - destruct onlyFirst; [|destruct (writeRows sel change false rest)]; done.
  - destruct (writeRows sel change onlyFirst rest) as [rest' n]. cbn in *.
    intros Hn. by rewrite IH.
Qed.

(** An update rewrites the first selected row, and with it what a
    [.first()] on the same selection finds. *)
Lemma writeRows_first sel (g : MealRow → MealRow) onlyFirst rows :
  (∀ row, sel (g row) = sel row) →
  head (List.filter sel (writeRows sel (λ row, Some (g row)) onlyFirst rows).1)
  = g <$> head (List.filter sel rows).
Proof.
  intros Hg. induction rows as [|row rest IH]; [done|]. cbn.
  destruct (sel row) eqn:Hsel.
  - destruct onlyFirst; [|destruct (writeRows sel _ false rest)];
      cbn; by rewrite Hg, Hsel.
  - destruct (writeRows sel _ onlyFirst rest) as [rest' n]. cbn in *.
    by rewrite Hsel.
Qed.

(** Without a limit, a delete leaves no selected row. *)
Lemma writeRows_delete_all sel rows :
  List.filter sel (writeRows sel (λ _, None) false rows).1 = [].
Proof.
  induction rows as [|row rest IH]; [done|]. cbn.
  destruct (sel row) eqn:Hsel;
    destruct (writeRows sel _ false rest) as [rest' n]; cbn in *; [done|].
  by rewrite Hsel.
Qed.

(** With a limit, a delete of the only selected row leaves none either. *)
Lemma writeRows_delete_one sel onlyFirst rows :
  length (List.filter sel rows) ≤ 1 →
  List.filter sel (writeRows sel (λ _, None) onlyFirst rows).1 = [].
Proof.
  induction rows as [|row rest IH]; [done|]. cbn.
  destruct (sel row) eqn:Hsel; cbn.
  - intros Hlen. assert (List.filter sel rest = []) as Hrest
      by (destruct (List.filter sel rest); [done|cbn in Hlen; lia]).
    destruct onlyFirst; [done|].
    specialize (IH ltac:(rewrite Hrest; cbn; lia)).
    by destruct (writeRows sel _ false rest).
  - intros Hlen. specialize (IH Hlen).
    destruct (writeRows sel _ onlyFirst rest) as [rest' n]. cbn in *.
    by rewrite Hsel.
Qed.

Lemma writeRows_delete_length sel onlyFirst rows :
  length (writeRows sel (λ _, None) onlyFirst rows).1
  + (writeRows sel (λ _, None) onlyFirst rows).2 = length rows.
Proof.
  induction rows as [|row rest IH]; [done|]. cbn.
  destruct (sel row).
  - destruct onlyFirst; cbn; [lia|].
    destruct (writeRows sel _ false rest); cbn in *; lia.
  - destruct (writeRows sel _ onlyFirst rest); cbn in *; lia.
Qed.

Lemma writeRows_update_shape sel (g : MealRow → MealRow) onlyFirst rows
    {B} (f : MealRow → B) :
  (∀ row, f (g row) = f row) →
  map f (writeRows sel (λ row, Some (g row)) onlyFirst rows).1 = map f rows.
Proof.
  intros Hf. induction rows as [|row rest IH]; [done|]. cbn.
  destruct (sel row).
  - destruct onlyFirst; [|destruct (writeRows sel _ false rest)];
      cbn in *; by rewrite Hf, ?IH.
  - destruct (writeRows sel _ onlyFirst rest); cbn in *. by rewrite IH.
Qed.

Lemma deleteMeal_result req w sid user others id :
  params_id req = Js.Str id → isUuid id = true →
  cookies_sessionId req = Some sid →
  List.filter (hasSession sid) (tbl_users (store w)) = user :: others →
  let written :=
    writeRows (mealMatches id (u_id user)) (λ _, None) writesHonourLimit
      (tbl_meals (store w)) in
  deleteMeal req w
  = (mkWorld (mkStore (tbl_users (store w)) written.1)
       (issued w ++ [SelectUsersBySession sid; DeleteMeal id (u_id user)])
       (replyCookie w) (drawn w),
     if written.2 =? 0
     then Val (Sent 401 (BError "Unauthorized"))
     else Val (Sent 202 (BText "Refeição deletada com sucesso"))).
Proof.
  intros Hid Huuid Hc Husers written. unfold deleteMeal, tryCatch.
  rewrite (bind_val _ _ _ _ _ (parseMealParams_result req w id Hid Huuid)).
  rewrite Hc, (bind_val _ _ _ _ _ (usersBySession_result sid w)), Husers.
  cbn [head]. subst written. crunch_handler; by rewrite <- app_assoc.
Qed.

Lemma editMeal_result req w sid user others id b :
  params_id req = Js.Str id → isUuid id = true →
  cookies_sessionId req = Some sid →
  List.filter (hasSession sid) (tbl_users (store w)) = user :: others →
  (parseMealBody (body req) w).2 = Val b →
  let written :=
    writeRows (mealMatches id (u_id user)) (λ row, Some (withMealBody b row))
      writesHonourLimit (tbl_meals (store w)) in
  editMeal req w
  = (mkWorld (mkStore (tbl_users (store w)) written.1)
       (issued w ++ [SelectUsersBySession sid; UpdateMeal id (u_id user)])
       (replyCookie w) (drawn w),
     if written.2 =? 0
     then Val (Sent 401 mealNotFound)
     else Val (Sent 202 (BMessage "Refeição editada com sucesso"))).
Proof.
  intros Hid Huuid Hc Husers Hp written. unfold editMeal, tryCatch.
  rewrite (bind_val _ _ _ _ _ (parseMealParams_result req w id Hid Huuid)).
  rewrite Hc, (bind_val _ _ _ _ _ (usersBySession_result sid w)), Husers.
  cbn [head].
  rewrite <- (parseMealBody_any_world _ _ (afterQueries w [SelectUsersBySession sid]))
    in Hp.
  apply parseMealBody_eq in Hp. rewrite (bind_val _ _ _ _ _ Hp).
  subst written. unfold withMealBody. crunch_handler; by rewrite <- app_assoc.
Qed.

Lemma getMeal_result req w sid user others id :
  params_id req = Js.Str id → isUuid id = true →
  cookies_sessionId req = Some sid →
  List.filter (hasSession sid) (tbl_users (store w)) = user :: others →
  (getMeal req w).2
  = match head (List.filter (mealMatches id (u_id user)) (tbl_meals (store w))) with
    | Some meal => Val (Returned (BMeal meal))
    | None => Val (Sent 404 mealNotFound)
    end.
Proof.
  intros Hid Huuid Hc Husers. unfold getMeal, tryCatch.
  rewrite (bind_val _ _ _ _ _ (parseMealParams_result req w id Hid Huuid)).
  rewrite Hc, (bind_val _ _ _ _ _ (usersBySession_result sid w)), Husers.
  cbn [head]. crunch_handler.
Qed.

Lemma listMeals_result req w sid user others :
  cookies_sessionId req = Some sid →
  List.filter (hasSession sid) (tbl_users (store w)) = user :: others →
  listMeals req w
  = (afterQueries w [SelectUsersBySession sid],
     Val (Listed (LMeals (mealsOfUser (u_id user) (store w))))).
Proof.
  intros Hc Husers. unfold listMeals, tryCatch.
  by rewrite Hc, (bind_val _ _ _ _ _ (usersBySession_result sid w)), Husers.
Qed.

Lemma listMeals_unresolved req w sid :
  cookies_sessionId req = Some sid →
  List.filter (hasSession sid) (tbl_users (store w)) = [] →
  listMeals req w
  = (afterQueries w [SelectUsersBySession sid], Thrown (ReferenceError "response")).
Proof.
  intros Hc Husers. unfold listMeals, tryCatch.
  by rewrite Hc, (bind_val _ _ _ _ _ (usersBySession_result sid w)), Husers.
Qed.

End MealWriteFacts.

Section WriteOutcomeFacts.

Context `{Platform} `{MealsTable}.

Lemma createUser_unless_success req w :
  succeeded (createUser req w).2 = true ∨ store (createUser req w).1 = store w.
Proof.
  destruct (parseUserBody (body req) w).2 as [b|e] eqn:Hp.
  - destruct (head (List.filter (λ u, String.eqb (u_email u) (b_email b))
                      (tbl_users (store w)))) as [u|] eqn:Hhead.
    + right. by rewrite (createUser_taken req w b u Hp Hhead).
    + left. by rewrite (createUser_new req w b Hp Hhead).
  - right. by rewrite (createUser_invalid req w e Hp).
Qed.

Lemma updateUser_unless_success req w :
  succeeded (updateUser req w).2 = true ∨ store (updateUser req w).1 = store w.
Proof.
  destruct (parseUserBody (body req) w).2 as [b|e] eqn:Hp.
  - destruct (cookies_sessionId req) as [sid|] eqn:Hc.
    + assert (params_id req = Js.Undefined ∨ params_id req ≠ Js.Undefined)
        as [Hid|Hid] by (destruct (params_id req); auto).
      * right. rewrite updateUser_failed; [done|]. by right; right.
      * rewrite (updateUser_result req w b sid Hp Hc Hid).
        destruct (length _ =? 0) eqn:Hlen; [right|by left].
        apply Nat.eqb_eq in Hlen. cbn. rewrite untargeted_map by done.
        by destruct (store w).
    + right. rewrite updateUser_failed; [done|]. by right; left.
  - right. rewrite updateUser_failed; [done|]. left. intros b. congruence.
Qed.

Lemma deleteUser_unless_success req w :
  succeeded (deleteUser req w).2 = true ∨ store (deleteUser req w).1 = store w.
Proof.
  rewrite (deleteUser_result req w). cbn [fst snd store].
  assert (length (List.filter (userTargeted req) (tbl_users (store w))) = 0 →
          mkStore (List.filter (λ u, negb (userTargeted req u)) (tbl_users (store w)))
            (tbl_meals (store w)) = store w) as Hsame.
  { intros Hlen. rewrite untargeted_filter by done. by destruct (store w). }
  destruct (cookies_sessionId req) as [sid|] eqn:Hc.
  - destruct (params_id req) eqn:Hid;
      try (destruct (length _ =? 0) eqn:Hlen;
           [right; apply Hsame; by apply Nat.eqb_eq|by left]).
    right. apply Hsame. rewrite filter_none; [done|]. intros u _.
    unfold userTargeted, userMatches, cellIs. rewrite Hc, Hid. cbn.
    apply andb_false_r.
  - right. apply Hsame. rewrite filter_none; [done|]. intros u _.
    unfold userTargeted. by rewrite Hc.
Qed.

Lemma createMeal_unless_success req w :
  succeeded (createMeal req w).2 = true ∨ store (createMeal req w).1 = store w.
Proof.
  destruct (createMeal_world req w) as [Hsame|(user & b & _ & -> & _)]; auto.
Qed.

Lemma deleteMeal_unless_success req w :
  succeeded (deleteMeal req w).2 = true ∨ store (deleteMeal req w).1 = store w.
Proof.
  unfold deleteMeal, parseMealParams, zUuid, zString.
  unfold_handler.
  destruct (params_id req) as [| |b|n|id]; cbn; auto.
  destruct (isUuid id); cbn; auto.
  destruct (cookies_sessionId req) as [sid|]; cbn; auto.
  destruct (head (List.filter (hasSession sid) (tbl_users (store w)))) as [user|];
    cbn; auto.
  pose proof (writeRows_unchanged (mealMatches id (u_id user)) (λ _, None)
                writesHonourLimit (tbl_meals (store w))) as Hw.
  destruct (writeRows _ _ _ _) as [rows n]. cbn in *.
  destruct (n =? 0) eqn:Hn; cbn; [right|by left].
  apply Nat.eqb_eq in Hn. rewrite Hw by done. by destruct (store w).
Qed.

Lemma editMeal_unless_success req w :
  succeeded (editMeal req w).2 = true ∨ store (editMeal req w).1 = store w.
Proof.
  unfold editMeal, parseMealParams, parseMealBody, zUuid, zString, zBoolean.
  unfold_handler.
  destruct (params_id req) as [| |b|n|id]; cbn; auto.
  destruct (isUuid id); cbn; auto.
  destruct (cookies_sessionId req) as [sid|]; cbn; auto.
  destruct (head (List.filter (hasSession sid) (tbl_users (store w)))) as [user|];
    cbn; auto.
  destruct (body req !! "name") as [[| | | |name]|]; cbn; auto.
  destruct (body req !! "description") as [[| | | |description]|]; cbn; auto.
  destruct (body req !! "isOnTheDiet") as [[| |onTheDiet| |]|]; cbn; auto.
  match goal with
  | |- context [writeRows ?sel ?change _ _] =>
      pose proof (writeRows_unchanged sel change writesHonourLimit
                    (tbl_meals (store w))) as Hw
  end.
  destruct (writeRows _ _ _ _) as [rows n]. cbn in *.
  destruct (n =? 0) eqn:Hn; cbn; [right|by left].
  apply Nat.eqb_eq in Hn. rewrite Hw by done. by destruct (store w).
Qed.

Lemma writeRows_Forall (P : MealRow → Prop) sel change onlyFirst rows :
  (∀ row row', change row = Some row' → P row') →
  Forall P rows → Forall P (writeRows sel change onlyFirst rows).1.
Proof.
  intros Hchange Hall. induction Hall as [|row rest Hrow Hrest IH]; [done|]. cbn.
  destruct (sel row).
  - destruct onlyFirst; [|destruct (writeRows sel change false rest)]; cbn in *;
      destruct (change row) as [row'|] eqn:Hc; eauto.
  - destruct (writeRows sel change onlyFirst rest). cbn in *. eauto.
Qed.

Lemma deleteMeal_Forall (P : MealRow → Prop) req w :
  Forall P (tbl_meals (store w)) → Forall P (tbl_meals (store (deleteMeal req w).1)).
Proof.
  intros Hall. unfold deleteMeal, parseMealParams, zUuid, zString.
  unfold_handler.
  destruct (params_id req) as [| |b|n|id]; cbn; auto.
  destruct (isUuid id); cbn; auto.
  destruct (cookies_sessionId req) as [sid|]; cbn; auto.
  destruct (head (List.filter (hasSession sid) (tbl_users (store w)))) as [user|];
    cbn; auto.
  pose proof (writeRows_Forall P (mealMatches id (u_id user)) (λ _, None)
                writesHonourLimit (tbl_meals (store w))) as Hw.
  destruct (writeRows _ _ _ _) as [rows n]. cbn in *.
  destruct (n =? 0); cbn; apply Hw; done.
Qed.

Lemma editMeal_flags req w :
  Forall flagIsBoolean (tbl_meals (store w)) →
  Forall flagIsBoolean (tbl_meals (store (editMeal req w).1)).
Proof.
  intros Hall.
  unfold editMeal, parseMealParams, parseMealBody, zUuid, zString, zBoolean.
  unfold_handler.
  destruct (params_id req) as [| |b|n|id]; cbn; auto.
  destruct (isUuid id); cbn; auto.
  destruct (cookies_sessionId req) as [sid|]; cbn; auto.
  destruct (head (List.filter (hasSession sid) (tbl_users (store w)))) as [user|];
    cbn; auto.
  destruct (body req !! "name") as [[| | | |name]|]; cbn; auto.
  destruct (body req !! "description") as [[| | | |description]|]; cbn; auto.
  destruct (body req !! "isOnTheDiet") as [[| |onTheDiet| |]|]; cbn; auto.
  match goal with
  | |- context [writeRows ?sel ?change _ _] =>
      pose proof (writeRows_Forall flagIsBoolean sel change writesHonourLimit
                    (tbl_meals (store w))) as Hw
  end.
  destruct (writeRows _ _ _ _) as [rows n]. cbn in *.
  destruct (n =? 0); cbn; apply Hw; try done;
    intros row row' [= <-]; by eexists.
Qed.

End WriteOutcomeFacts.

(** X18. A write route that does not answer with a success status has
    changed nothing: after [POST /users], [PUT] and [DELETE /users/:id],
    [POST /meals], [PUT] and [DELETE /meals/:id], either the answer is a 200,
    201 or 202, or both tables are what they were. *)
Theorem writes_change_nothing_unless_success `{Platform} `{MealsTable}
    (req : Request) (w : World) :
  (succeeded (POST_users req w).2 = true ∨ store (POST_users req w).1 = store w)
  ∧ (succeeded (PUT_users_id req w).2 = true
     ∨ store (PUT_users_id req w).1 = store w)
  ∧ (succeeded (DELETE_users_id req w).2 = true
     ∨ store (DELETE_users_id req w).1 = store w)
  ∧ (succeeded (POST_meals req w).2 = true ∨ store (POST_meals req w).1 = store w)
  ∧ (succeeded (PUT_meals_id req w).2 = true
     ∨ store (PUT_meals_id req w).1 = store w)
  ∧ (succeeded (DELETE_meals_id req w).2 = true
     ∨ store (DELETE_meals_id req w).1 = store w).
Proof.
  split; [apply createUser_unless_success|].
  unfold PUT_users_id, DELETE_users_id, POST_meals, PUT_meals_id, DELETE_meals_id,
    withPreHandler.
  destruct (checkSessionIdExists req); [by repeat split; right|].
  repeat split;
    first [apply updateUser_unless_success | apply deleteUser_unless_success
          | apply createMeal_unless_success | apply editMeal_unless_success
          | apply deleteMeal_unless_success].
Qed.

(** X19. [POST /meals], for a resolved user and a body with a string
    [name], a string [description] and a boolean [isOnTheDiet], is answered
    201 and appends exactly one meal: a new uuid as id, the resolved user's
    id as owner, the body's three fields.  The users table is untouched. *)
Theorem create_meal_appends_one_owned_meal `{Platform} `{MealsTable}
    (req : Request) (w : World) (sid : string) (user : UserRow)
    (others : list UserRow) (b : MealBody) :
  checkSessionIdExists req = None →
  cookies_sessionId req = Some sid →
  List.filter (hasSession sid) (tbl_users (store w)) = user :: others →
  body req !! "name" = Some (Js.Str (b_mealName b)) →
  body req !! "description" = Some (Js.Str (b_description b)) →
  body req !! "isOnTheDiet" = Some (Js.Bool (b_isOnTheDiet b)) →
  (POST_meals req w).2 = Val (Sent 201 (BText "Refeição criada com sucesso"))
  ∧ store (POST_meals req w).1
    = mkStore (tbl_users (store w))
        (tbl_meals (store w)
         ++ [mkMeal (randomUUIDAt (drawn w)) (u_id user) (b_mealName b)
               (b_description b) (Js.Bool (b_isOnTheDiet b))
               inDietDefault dateAndHourDefault]).
Proof.
  intros Hpre Hc Husers Hn Hd Hf. unfold POST_meals, withPreHandler. rewrite Hpre.
  assert ((parseMealBody (body req) w).2 = Val b) as Hp
    by (by apply parseMealBody_spec).
  by rewrite (createMeal_result req w sid user others b Hc Husers Hp).
Qed.

Lemma create_meal_witness :
  let P := platformWith numericCounts false in
  let req := mkRequest (Some "s2") Js.Undefined (mealBody "Bolo" "De cenoura" false) in
  let r := @POST_meals P nullDefaults req (worldOf [ana; bia] [salada]) in
  r.2 = Val (Sent 201 (BText "Refeição criada com sucesso"))
  ∧ store r.1
    = mkStore [ana; bia]
        ([salada] ++ [mkMeal "uuid-0" "u2" "Bolo" "De cenoura" (Js.Bool false)
                        Js.Null Js.Null]).
Proof.
  apply (@create_meal_appends_one_owned_meal (platformWith numericCounts false)
           nullDefaults
           (mkRequest (Some "s2") Js.Undefined (mealBody "Bolo" "De cenoura" false))
           (worldOf [ana; bia] [salada]) "s2" bia []
           (mkMealBody "Bolo" "De cenoura" false) eq_refl eq_refl eq_refl);
    vm_compute; reflexivity.
Defined.

(** X20. What [POST /meals], [PUT /meals/:id] and [DELETE /meals/:id] store
    under [isOnTheDiet] is a JavaScript boolean: if every stored meal has a
    boolean there, so has every stored meal after any of the three. *)
Theorem meal_writes_keep_flags_boolean `{Platform} `{MealsTable}
    (req : Request) (w : World) :
  Forall flagIsBoolean (tbl_meals (store w)) →
  Forall flagIsBoolean (tbl_meals (store (POST_meals req w).1))
  ∧ Forall flagIsBoolean (tbl_meals (store (PUT_meals_id req w).1))
  ∧ Forall flagIsBoolean (tbl_meals (store (DELETE_meals_id req w).1)).
Proof.
  intros Hall. unfold POST_meals, PUT_meals_id, DELETE_meals_id, withPreHandler.
  destruct (checkSessionIdExists req); [done|].
  split; [|split].
  - destruct (createMeal_world req w) as [->|(user & b & _ & _ & ->)]; [done|].
    cbn. apply Forall_app. split; [done|].
    apply Forall_singleton. by eexists.
  - by apply editMeal_flags.
  - by apply deleteMeal_Forall.
Qed.

Lemma meal_writes_keep_flags_boolean_witness :
  let P := platformWith numericCounts false in
  let req := mkRequest (Some "s1") (Js.Str "m1") (mealBody "Bolo" "De cenoura" false) in
  let w := worldOf [ana; bia] [salada; pizza] in
  Forall flagIsBoolean (tbl_meals (store (@POST_meals P nullDefaults req w).1))
  ∧ Forall flagIsBoolean (tbl_meals (store (@PUT_meals_id P req w).1))
  ∧ Forall flagIsBoolean (tbl_meals (store (@DELETE_meals_id P req w).1)).
Proof.
  apply (@meal_writes_keep_flags_boolean (platformWith numericCounts false)
           nullDefaults).
  repeat constructor; by eexists.
Defined.

Section MealRoundTripFacts.

Context `{Platform} `{MealsTable}.

Lemma cellIsBool_exclusive cell :
  cellIsBool true cell && cellIsBool false cell = false.
Proof. by destruct cell as [| |[]|[|[|[]|]]|]. Qed.

Lemma cellIsBool_boolean b cell :
  cell = Js.Bool b → cellIsBool true cell || cellIsBool false cell = true.
Proof. intros ->. by destruct b. Qed.

Lemma filter_length_split {A} (f g h : A → bool) (l : list A) :
  (∀ x, x ∈ l → (if f x then 1 else 0)
                = (if g x then 1 else 0) + (if h x then 1 else 0)) →
  length (List.filter f l) = length (List.filter g l) + length (List.filter h l).
Proof.
  induction l as [|x l IH]; [done|]. intros Hx. cbn.
  specialize (IH ltac:(intros y Hy; apply Hx; by right)).
  specialize (Hx x ltac:(by left)).
  destruct (f x), (g x), (h x); cbn in *; lia.
Qed.

Lemma filter_length_bound {A} (f g h : A → bool) (l : list A) :
  (∀ x, (if g x then 1 else 0) + (if h x then 1 else 0)
        ≤ (if f x then 1 else 0)) →
  length (List.filter g l) + length (List.filter h l) ≤ length (List.filter f l).
Proof.
  intros Hx. induction l as [|x l IH]; [done|]. cbn.
  specialize (Hx x). destruct (f x), (g x), (h x); cbn in *; lia.
Qed.

Lemma mealCount_split uid (meals : list MealRow) :
  (∀ meal, meal ∈ meals → user_id meal = uid → flagIsBoolean meal) →
  length (List.filter (mealCounted uid None) meals)
  = length (List.filter (mealCounted uid (Some true)) meals)
    + length (List.filter (mealCounted uid (Some false)) meals).
Proof.
  intros Hflags. apply filter_length_split. intros meal Hmeal.
  unfold mealCounted.
  destruct (String.eqb (user_id meal) uid) eqn:Hu; cbn; [|done].
  apply String.eqb_eq in Hu. destruct (Hflags meal Hmeal Hu) as [b ->].
  by destruct b.
Qed.

Lemma mealCount_bounded uid (meals : list MealRow) :
  length (List.filter (mealCounted uid (Some true)) meals)
  + length (List.filter (mealCounted uid (Some false)) meals)
  ≤ length (List.filter (mealCounted uid None) meals).
Proof.
  apply filter_length_bound. intros meal. unfold mealCounted.
  destruct (String.eqb (user_id meal) uid); cbn; [|done].
  pose proof (cellIsBool_exclusive (isOnTheDiet meal)) as Hex.
  destruct (cellIsBool true (isOnTheDiet meal)),
    (cellIsBool false (isOnTheDiet meal)); cbn in *; try done; lia.
Qed.

End MealRoundTripFacts.

(** X21. A meal just created can be fetched: after a [POST /meals] answered
    201, [GET /meals/:id] with the same cookie and the new meal's id (the uuid
    drawn) returns a meal with that id owned by the resolved user; it is the
    created meal itself when the user had no meal with that id before. *)
Theorem created_meal_can_be_fetched `{Platform} `{MealsTable}
    (req req' : Request) (w : World) (sid : string) (user : UserRow)
    (others : list UserRow) (b : MealBody) :
  cookies_sessionId req = Some sid →
  List.filter (hasSession sid) (tbl_users (store w)) = user :: others →
  (parseMealBody (body req) w).2 = Val b →
  cookies_sessionId req' = Some sid →
  params_id req' = Js.Str (randomUUIDAt (drawn w)) →
  isUuid (randomUUIDAt (drawn w)) = true →
  let w1 := (createMeal req w).1 in
  (∃ meal, (getMeal req' w1).2 = Val (Returned (BMeal meal))
           ∧ m_id meal = randomUUIDAt (drawn w) ∧ user_id meal = u_id user)
  ∧ ((∀ meal, meal ∈ tbl_meals (store w) → user_id meal = u_id user →
              m_id meal ≠ randomUUIDAt (drawn w)) →
     (getMeal req' w1).2 = Val (Returned (BMeal (newMealRow w user b)))).
Proof.
  intros Hc Husers Hp Hc' Hid Huuid w1. subst w1.
  rewrite (createMeal_result req w sid user others b Hc Husers Hp). cbn [fst].
  erewrite (getMeal_result req' _ sid user others _ Hid Huuid Hc'); [|exact Husers].
  cbn [store tbl_meals]. rewrite List.filter_app. cbn [List.filter].
  assert (mealMatches (randomUUIDAt (drawn w)) (u_id user) (newMealRow w user b) = true)
    as Hnew by (unfold mealMatches; cbn; by rewrite !String.eqb_refl).
  rewrite Hnew. split.
  - destruct (List.filter _ (tbl_meals (store w))) as [|meal rest] eqn:Hf; cbn.
    + eexists. split; [done|]. done.
    + exists meal. split; [done|].
      assert (In meal (List.filter (mealMatches (randomUUIDAt (drawn w)) (u_id user))
                         (tbl_meals (store w)))) as Hin by (rewrite Hf; by left).
      apply filter_In in Hin as [_ Hm]. unfold mealMatches in Hm.
      apply andb_true_iff in Hm as [Hi Hu].
      by apply String.eqb_eq in Hi, Hu.
  - intros Hfresh. rewrite filter_none; [done|]. intros meal Hmeal.
    unfold mealMatches. destruct (String.eqb (user_id meal) (u_id user)) eqn:Hu;
      [|apply andb_false_r].
    apply String.eqb_eq in Hu. rewrite andb_true_r.
    by apply String.eqb_neq, Hfresh.
Qed.

Lemma created_meal_witness :
  let P := platformWith numericCounts false in
  let req := mkRequest (Some "s2") Js.Undefined (mealBody "Bolo" "De cenoura" false) in
  let req' := mkRequest (Some "s2") (Js.Str "uuid-0") ∅ in
  let w1 := (@createMeal P nullDefaults req (worldOf [ana; bia] [salada; pizza])).1 in
  (@getMeal P req' w1).2
  = Val (Returned (BMeal (mkMeal "uuid-0" "u2" "Bolo" "De cenoura" (Js.Bool false)
                            Js.Null Js.Null))).
Proof.
  apply (@created_meal_can_be_fetched (platformWith numericCounts false) nullDefaults
           (mkRequest (Some "s2") Js.Undefined (mealBody "Bolo" "De cenoura" false))
           (mkRequest (Some "s2") (Js.Str "uuid-0") ∅)
           (worldOf [ana; bia] [salada; pizza]) "s2" bia []
           (mkMealBody "Bolo" "De cenoura" false)
           eq_refl eq_refl ltac:(vm_compute; reflexivity) eq_refl eq_refl eq_refl).
  intros meal Hmeal _. apply list_elem_of_In in Hmeal. cbn in Hmeal.
  destruct Hmeal as [<-|[<-|[]]]; discriminate.
Defined.

(** X22. A created meal is counted by the summary of its owner and of
    nobody else: after a [POST /meals] answered 201 for user [user] with flag
    [b], the owner's count of all meals and the count for [b] are each one
    more, the count for the other flag is the same, and every count of
    every other user is the same. *)
Theorem created_meal_is_counted_once `{Platform} `{MealsTable}
    (req : Request) (w : World) (sid : string) (user : UserRow)
    (others : list UserRow) (b : MealBody) :
  cookies_sessionId req = Some sid →
  List.filter (hasSession sid) (tbl_users (store w)) = user :: others →
  (parseMealBody (body req) w).2 = Val b →
  let w1 := (createMeal req w).1 in
  mealCount (u_id user) None w1 = S (mealCount (u_id user) None w)
  ∧ mealCount (u_id user) (Some (b_isOnTheDiet b)) w1
    = S (mealCount (u_id user) (Some (b_isOnTheDiet b)) w)
  ∧ mealCount (u_id user) (Some (negb (b_isOnTheDiet b))) w1
    = mealCount (u_id user) (Some (negb (b_isOnTheDiet b))) w
  ∧ ∀ uid flag, uid ≠ u_id user → mealCount uid flag w1 = mealCount uid flag w.
Proof.
  intros Hc Husers Hp w1. subst w1.
  rewrite (createMeal_result req w sid user others b Hc Husers Hp). cbn [fst].
  unfold mealCount. cbn [store tbl_meals].
  repeat split; intros; rewrite List.filter_app, length_app; cbn [List.filter];
    unfold mealCounted at 2; cbn.
  - rewrite String.eqb_refl. cbn. lia.
  - rewrite String.eqb_refl. destruct (b_isOnTheDiet b); cbn; lia.
  - rewrite String.eqb_refl. destruct (b_isOnTheDiet b); cbn; lia.
  - assert (String.eqb (u_id user) uid = false) as ->
      by (apply String.eqb_neq; congruence).
    cbn. lia.
Qed.

Lemma created_meal_is_counted_witness :
  let P := platformWith numericCounts false in
  let req := mkRequest (Some "s2") Js.Undefined (mealBody "Bolo" "De cenoura" false) in
  let w := worldOf [ana; bia] [salada; pizza] in
  let w1 := (@createMeal P nullDefaults req w).1 in
  mealCount "u2" None w1 = 2
  ∧ mealCount "u2" (Some false) w1 = 2
  ∧ mealCount "u2" (Some true) w1 = 0
  ∧ ∀ uid flag, uid ≠ "u2" → mealCount uid flag w1 = mealCount uid flag w.
Proof.
  exact (@created_meal_is_counted_once (platformWith numericCounts false) nullDefaults
           (mkRequest (Some "s2") Js.Undefined (mealBody "Bolo" "De cenoura" false))
           (worldOf [ana; bia] [salada; pizza]) "s2" bia []
           (mkMealBody "Bolo" "De cenoura" false) eq_refl eq_refl eq_refl).
Defined.

(** X23. In [GET /meals/summary] the within-diet and off-diet counts never
    exceed the count of all meals of the user, and they add up to it when
    each of the user's meals has a boolean under [isOnTheDiet]; with a
    storage layer that gives counts as numbers or decimal text, the summary
    then reports total = within + off. *)
Theorem summary_counts_add_up `{Platform} (req : Request) (w : World)
    (sid : string) (user : UserRow) (others : list UserRow) :
  checkSessionIdExists req = None →
  cookies_sessionId req = Some sid →
  List.filter (hasSession sid) (tbl_users (store w)) = user :: others →
  let uid := u_id user in
  mealCount uid (Some true) w + mealCount uid (Some false) w ≤ mealCount uid None w
  ∧ ((∀ meal, meal ∈ tbl_meals (store w) → user_id meal = uid → flagIsBoolean meal) →
     mealCount uid None w = mealCount uid (Some true) w + mealCount uid (Some false) w
     ∧ ((∀ n, countRepr n = numericCounts n ∨ countRepr n = textCounts n) →
        (GET_meals_summary req w).2
        = Val (Returned (BMealsSummary
                 (Js.Num (Z.of_nat (mealCount uid (Some true) w
                                    + mealCount uid (Some false) w)))
                 (Js.Num (Z.of_nat (mealCount uid (Some true) w)))
                 (Js.Num (Z.of_nat (mealCount uid (Some false) w))))))).
Proof.
  intros Hpre Hc Husers uid. split; [apply mealCount_bounded|].
  intros Hflags.
  pose proof (mealCount_split uid (tbl_meals (store w)) Hflags) as Hsplit.
  split; [exact Hsplit|]. intros Hrepr.
  unfold GET_meals_summary, withPreHandler. rewrite Hpre.
  rewrite (mealsSummary_resolved req w sid user others Hc Husers). cbn [snd].
  assert (∀ n, Js.parseInt (Js.jsonRoundTrip (countRepr n)) = Js.Num (Z.of_nat n))
    as Hparse.
  { intros n. destruct (Hrepr n) as [->| ->];
      [apply parseInt_numericCounts|apply parseInt_textCounts]. }
  rewrite !Hparse. unfold mealCount, uid in *. by rewrite Hsplit.
Qed.

Lemma summary_counts_add_up_witness :
  let P := platformWith textCounts false in
  let w := worldOf [ana; bia] [salada; pizza; salada] in
  (@GET_meals_summary P (withCookie "s1") w).2
  = Val (Returned (BMealsSummary (Js.Num 2) (Js.Num 2) (Js.Num 0))).
Proof.
  destruct (@summary_counts_add_up (platformWith textCounts false)
              (withCookie "s1") (worldOf [ana; bia] [salada; pizza; salada])
              "s1" ana [] eq_refl eq_refl eq_refl) as [_ Hsum].
  destruct Hsum as [_ Hreport].
  - intros meal Hmeal _. apply list_elem_of_In in Hmeal. cbn in Hmeal.
    destruct Hmeal as [<-|[<-|[<-|[]]]]; by eexists.
  - exact (Hreport (λ n, or_intror eq_refl)).
Defined.

Section MealEditFacts.

Context `{Platform}.

Lemma mealMatches_spec id uid meal :
  mealMatches id uid meal = true ↔ m_id meal = id ∧ user_id meal = uid.
Proof. unfold mealMatches. by rewrite andb_true_iff, !String.eqb_eq. Qed.

Lemma some_meal_matches sel onlyFirst change (rows : list MealRow) :
  ((writeRows sel change onlyFirst rows).2 =? 0) = false
  ↔ ∃ row, row ∈ rows ∧ sel row = true.
Proof.
  rewrite Nat.eqb_neq, writeRows_none. split.
  - intros Hsome. destruct (head (List.filter sel rows)) as [row|] eqn:Hhead.
    + exists row. split; [by eapply head_filter_elem|by eapply head_filter_sat].
    + destruct Hsome. by apply head_filter_None.
  - intros (row & Hrow & Hsel) Hnone. rewrite (Hnone row Hrow) in Hsel. done.
Qed.

End MealEditFacts.

(** X24. An edit shows in the next fetch: when [GET /meals/:id] returns a
    meal and a [PUT /meals/:id] with the same cookie and id and a well-formed
    body follows, the [PUT] is answered 202 and the same [GET] then returns
    that meal with the body's name, description and flag, its id, owner and
    other columns being what they were. *)
Theorem edited_meal_is_fetched_back `{Platform} (req : Request) (w : World)
    (sid id : string) (user : UserRow) (others : list UserRow) (b : MealBody)
    (meal : MealRow) :
  params_id req = Js.Str id → isUuid id = true →
  cookies_sessionId req = Some sid →
  List.filter (hasSession sid) (tbl_users (store w)) = user :: others →
  (parseMealBody (body req) w).2 = Val b →
  (getMeal req w).2 = Val (Returned (BMeal meal)) →
  (editMeal req w).2 = Val (Sent 202 (BMessage "Refeição editada com sucesso"))
  ∧ (getMeal req (editMeal req w).1).2
    = Val (Returned (BMeal (withMealBody b meal))).
Proof.
  intros Hid Huuid Hc Husers Hp Hget.
  rewrite (getMeal_result req w sid user others id Hid Huuid Hc Husers) in Hget.
  destruct (head (List.filter (mealMatches id (u_id user)) (tbl_meals (store w))))
    as [found|] eqn:Hhead; [|discriminate Hget].
  injection Hget as ->.
  rewrite (editMeal_result req w sid user others id b Hid Huuid Hc Husers Hp).
  cbn [fst snd]. split.
  - destruct (_ =? 0) eqn:Hn; [|done].
    assert (((writeRows (mealMatches id (u_id user))
                (λ row, Some (withMealBody b row)) writesHonourLimit
                (tbl_meals (store w))).2 =? 0) = false) as Hsome; [|congruence].
    apply some_meal_matches. exists meal.
    split; [by eapply head_filter_elem|by eapply head_filter_sat].
  - erewrite (getMeal_result req _ sid user others id Hid Huuid Hc);
      [|exact Husers].
    cbn [store tbl_meals]. rewrite writeRows_first by done. by rewrite Hhead.
Qed.

Lemma edited_meal_witness :
  let P := platformWith numericCounts true in
  let req := mkRequest (Some "s2") (Js.Str "m2") (mealBody "Pizza" "Integral" true) in
  let w := worldOf [ana; bia] [salada; pizza] in
  (@editMeal P req w).2 = Val (Sent 202 (BMessage "Refeição editada com sucesso"))
  ∧ (@getMeal P req (@editMeal P req w).1).2
    = Val (Returned (BMeal (mkMeal "m2" "u2" "Pizza" "Integral" (Js.Bool true)
                              Js.zero Js.Null))).
Proof.
  exact (@edited_meal_is_fetched_back (platformWith numericCounts true)
           (mkRequest (Some "s2") (Js.Str "m2") (mealBody "Pizza" "Integral" true))
           (worldOf [ana; bia] [salada; pizza]) "s2" "m2" bia []
           (mkMealBody "Pizza" "Integral" true) pizza
           eq_refl eq_refl eq_refl eq_refl eq_refl eq_refl).
Defined.

(** X25. A deleted meal is gone: after a [DELETE /meals/:id] for a resolved
    user, when the dialect deletes every matching row or the user had at most
    one meal with that id, [GET /meals/:id] with the same cookie and id
    answers 404 and a second [DELETE] answers 401 and changes nothing. *)
Theorem deleted_meal_is_gone `{Platform} (req : Request) (w : World)
    (sid id : string) (user : UserRow) (others : list UserRow) :
  params_id req = Js.Str id → isUuid id = true →
  cookies_sessionId req = Some sid →
  List.filter (hasSession sid) (tbl_users (store w)) = user :: others →
  writesHonourLimit = false
  ∨ length (List.filter (mealMatches id (u_id user)) (tbl_meals (store w))) ≤ 1 →
  let w1 := (deleteMeal req w).1 in
  (getMeal req w1).2 = Val (Sent 404 mealNotFound)
  ∧ (deleteMeal req w1).2 = Val (Sent 401 (BError "Unauthorized"))
  ∧ store (deleteMeal req w1).1 = store w1.
Proof.
  intros Hid Huuid Hc Husers Hall w1. subst w1.
  rewrite (deleteMeal_result req w sid user others id Hid Huuid Hc Husers).
  cbn [fst].
  set (rows := (writeRows (mealMatches id (u_id user)) (λ _, None)
                  writesHonourLimit (tbl_meals (store w))).1).
  assert (List.filter (mealMatches id (u_id user)) rows = []) as Hgone.
  { subst rows. destruct Hall as [->|Hone];
      [apply writeRows_delete_all|by apply writeRows_delete_one]. }
  split.
  - erewrite (getMeal_result req _ sid user others id Hid Huuid Hc);
      [|exact Husers].
    cbn [store tbl_meals]. by rewrite Hgone.
  - erewrite (deleteMeal_result req _ sid user others id Hid Huuid Hc);
      [|exact Husers].
    cbn [fst snd store tbl_meals tbl_users].
    assert ((writeRows (mealMatches id (u_id user)) (λ _, None) writesHonourLimit
               rows).2 = 0) as Hzero.
    { apply writeRows_none. intros row Hrow.
      destruct (mealMatches id (u_id user) row) eqn:Hm; [|done].
      assert (In row (List.filter (mealMatches id (u_id user)) rows)) as Hin
        by (apply filter_In; split; [by apply list_elem_of_In|done]).
      rewrite Hgone in Hin. destruct Hin. }
    rewrite Hzero. split; [done|]. by rewrite writeRows_unchanged.
Qed.

Lemma deleted_meal_witness :
  let P := platformWith numericCounts true in
  let req := mkRequest (Some "s1") (Js.Str "m1") ∅ in
  let w1 := (@deleteMeal P req (worldOf [ana; bia] [salada; pizza])).1 in
  (@getMeal P req w1).2 = Val (Sent 404 mealNotFound)
  ∧ (@deleteMeal P req w1).2 = Val (Sent 401 (BError "Unauthorized"))
  ∧ store (@deleteMeal P req w1).1 = store w1.
Proof.
  apply (@deleted_meal_is_gone (platformWith numericCounts true)
           (mkRequest (Some "s1") (Js.Str "m1") ∅)
           (worldOf [ana; bia] [salada; pizza]) "s1" "m1" ana []
           eq_refl eq_refl eq_refl eq_refl).
  right. cbn. lia.
Defined.

(** With a limit on writes and two meals of the same id, the first delete
    leaves the second one to be fetched. *)
Example limited_delete_leaves_a_twin :
  let P := platformWith numericCounts true in
  let req := mkRequest (Some "s1") (Js.Str "m1") ∅ in
  let w1 := (@deleteMeal P req (worldOf [ana] [salada; salada])).1 in
  (@getMeal P req w1).2 = Val (Returned (BMeal salada)).
Proof. reflexivity. Qed.

(** X26. [DELETE /meals/:id], for a resolved user, is answered 202 exactly
    when that user owns a meal with that id, and 401 otherwise; the number of
    stored meals goes down by the number of rows it reports deleted, which is
    at most one when the dialect applies the limit of [.first()]. *)
Theorem delete_meal_answer_and_count `{Platform} (req : Request) (w : World)
    (sid id : string) (user : UserRow) (others : list UserRow) :
  checkSessionIdExists req = None →
  params_id req = Js.Str id → isUuid id = true →
  cookies_sessionId req = Some sid →
  List.filter (hasSession sid) (tbl_users (store w)) = user :: others →
  let r := DELETE_meals_id req w in
  let owned := List.filter (mealMatches id (u_id user)) (tbl_meals (store w)) in
  (r.2 = if length owned =? 0
         then Val (Sent 401 (BError "Unauthorized"))
         else Val (Sent 202 (BText "Refeição deletada com sucesso")))
  ∧ length (tbl_meals (store r.1))
    = length (tbl_meals (store w))
      - (if writesHonourLimit then Nat.min 1 (length owned) else length owned).
Proof.
  intros Hpre Hid Huuid Hc Husers r owned. subst r.
  unfold DELETE_meals_id, withPreHandler. rewrite Hpre.
  rewrite (deleteMeal_result req w sid user others id Hid Huuid Hc Husers).
  cbn [fst snd store tbl_meals].
  assert (∀ rows,
            (writeRows (mealMatches id (u_id user)) (λ _, None) writesHonourLimit
               rows).2
            = if writesHonourLimit
              then Nat.min 1 (length (List.filter (mealMatches id (u_id user)) rows))
              else length (List.filter (mealMatches id (u_id user)) rows)) as Hn.
  { induction rows as [|row rest IH]; [by destruct writesHonourLimit|]. cbn.
    destruct (mealMatches id (u_id user) row); cbn.
    - destruct writesHonourLimit; cbn; [done|].
      destruct (writeRows _ _ false rest). cbn in *. by rewrite IH.
    - destruct (writeRows _ _ writesHonourLimit rest). cbn in *. exact IH. }
  pose proof (writeRows_delete_length (mealMatches id (u_id user))
                writesHonourLimit (tbl_meals (store w))) as Hlen.
  rewrite Hn in *. subst owned. split; [|lia].
  destruct writesHonourLimit; [|done].
  by destruct (length (List.filter _ _)).
Qed.

Lemma delete_meal_answer_witness :
  let P := platformWith numericCounts false in
  let r := @DELETE_meals_id P (mkRequest (Some "s1") (Js.Str "m1") ∅)
             (worldOf [ana; bia] [salada; pizza; salada]) in
  r.2 = Val (Sent 202 (BText "Refeição deletada com sucesso"))
  ∧ length (tbl_meals (store r.1)) = 1.
Proof.
  exact (@delete_meal_answer_and_count (platformWith numericCounts false)
           (mkRequest (Some "s1") (Js.Str "m1") ∅)
           (worldOf [ana; bia] [salada; pizza; salada]) "s1" "m1" ana []
           eq_refl eq_refl eq_refl eq_refl eq_refl).
Defined.

(** X27. [PUT /meals/:id] never adds, removes, moves or re-owns a meal:
    whatever the request, the ids, the owners and the [inDiet] and
    [dateAndHour] cells of the stored meals are afterwards what they were,
    row by row. *)
Theorem edit_meal_keeps_ids_and_owners `{Platform} (req : Request) (w : World) :
  let w' := (PUT_meals_id req w).1 in
  map m_id (tbl_meals (store w')) = map m_id (tbl_meals (store w))
  ∧ map user_id (tbl_meals (store w')) = map user_id (tbl_meals (store w))
  ∧ map inDiet (tbl_meals (store w')) = map inDiet (tbl_meals (store w))
  ∧ map dateAndHour (tbl_meals (store w')) = map dateAndHour (tbl_meals (store w))
  ∧ tbl_users (store w') = tbl_users (store w).
Proof.
  unfold PUT_meals_id, withPreHandler.
  destruct (checkSessionIdExists req); [done|].
  unfold editMeal, parseMealParams, parseMealBody, zUuid, zString, zBoolean.
  unfold_handler.
  destruct (params_id req) as [| |b|n|id]; cbn; try done.
  destruct (isUuid id); cbn; [|done].
  destruct (cookies_sessionId req) as [sid|]; cbn; [|done].
  destruct (head (List.filter (hasSession sid) (tbl_users (store w)))) as [user|];
    cbn; [|done].
  destruct (body req !! "name") as [[| | | |name]|]; cbn; try done.
  destruct (body req !! "description") as [[| | | |description]|]; cbn; try done.
  destruct (body req !! "isOnTheDiet") as [[| |onTheDiet| |]|]; cbn; try done.
  match goal with
  | |- context [writeRows ?sel (λ row, Some (@?g row)) _ _] =>
      pose proof (λ B (f : MealRow → B),
                    writeRows_update_shape sel g writesHonourLimit
                      (tbl_meals (store w)) f) as Hw
  end.
  destruct (writeRows _ _ _ _) as [rows n]. cbn in *.
  destruct (n =? 0); cbn; repeat split; by apply Hw.
Qed.

(** X28. [GET /meals], on a request the middleware lets through with the
    cookie [sid], returns exactly the meals whose [user_id] is the id of the
    first user with that session, in table order, so none of another user's;
    when no user has that session the handler, which does not bind
    [response], throws a ReferenceError instead of answering 404. *)
Theorem list_meals_returns_owner_meals `{Platform} (req : Request) (w : World)
    (sid : string) :
  checkSessionIdExists req = None →
  cookies_sessionId req = Some sid →
  (GET_meals req w).2
  = match resolvedUser w req with
    | Some user =>
        Val (Listed (LMeals (List.filter (λ meal, String.eqb (user_id meal) (u_id user))
                               (tbl_meals (store w)))))
    | None => Thrown (ReferenceError "response")
    end.
Proof.
  intros Hpre Hc. unfold GET_meals, withPreHandlerListing, resolvedUser.
  rewrite Hpre, Hc.
  destruct (List.filter (hasSession sid) (tbl_users (store w)))
    as [|user others] eqn:Husers.
  - by rewrite (listMeals_unresolved req w sid Hc Husers).
  - by rewrite (listMeals_result req w sid user others Hc Husers).
Qed.

Lemma list_meals_witness :
  let P := platformWith numericCounts false in
  let w := worldOf [ana; bia] [salada; pizza; salada] in
  (@GET_meals P (withCookie "s1") w).2 = Val (Listed (LMeals [salada; salada]))
  ∧ (@GET_meals P (withCookie "s9") w).2 = Thrown (ReferenceError "response").
Proof.
  split.
  - exact (@list_meals_returns_owner_meals (platformWith numericCounts false)
             (withCookie "s1") (worldOf [ana; bia] [salada; pizza; salada]) "s1"
             eq_refl eq_refl).
  - exact (@list_meals_returns_owner_meals (platformWith numericCounts false)
             (withCookie "s9") (worldOf [ana; bia] [salada; pizza; salada]) "s9"
             eq_refl eq_refl).
Defined.

Section SharedSessionFacts.

Context `{Platform}.



End SharedSessionFacts.



(** Ana and a second user on Ana's session: the list shows Ana's two meals,
    the metrics count three. *)
Example shared_session_adds_meals_to_metrics :
  let P := platformWith numericCounts false in
  let w := worldOf [ana; mkUser "u3" "Caio" "caio@example.com" "Rua C" 80 180 "s1"]
             [salada; mkMeal "m3" "u3" "Bolo" "De cenoura" (Js.Bool false)
                        Js.zero Js.Null; salada] in
  (@GET_meals P (withCookie "s1") w).2 = Val (Listed (LMeals [salada; salada]))
  ∧ (@GET_users_metrics P (withCookie "s1") w).2
    = Val (Returned (BMetrics (mkMetrics 3 2 1 1))).
Proof. split; reflexivity. Qed.

Section UsersSummaryFacts.

Context `{Platform}.

Lemma usersSummary_resolved req w sid user others :
  cookies_sessionId req = Some sid →
  List.filter (hasSession sid) (tbl_users (store w)) = user :: others →
  usersSummary req w
  = (afterQueries w [SelectUsersBySession sid; CountUsers],
     Val (Returned (BUsersSummary
                      (Js.parseInt (countRepr (length (tbl_users (store w)))))))).
Proof.
  intros Hc Husers. unfold usersSummary, tryCatch.
  rewrite Hc, (bind_val _ _ _ _ _ (usersBySession_result sid w)), Husers.
  cbn [head]. unfold afterQueries. crunch_handler. by rewrite <- app_assoc.
Qed.

End UsersSummaryFacts.

(** X29. [GET /users/summary], for a session that resolves to a user,
    reports [parseInt] of the count of all rows of [users], those of other
    sessions included; with counts given as numbers or decimal text that is
    the number of stored users. *)
Theorem users_summary_counts_every_user `{Platform} (req : Request) (w : World)
    (sid : string) (user : UserRow) (others : list UserRow) :
  checkSessionIdExists req = None →
  cookies_sessionId req = Some sid →
  List.filter (hasSession sid) (tbl_users (store w)) = user :: others →
  (GET_users_summary req w).2
  = Val (Returned (BUsersSummary
                     (Js.parseInt (countRepr (length (tbl_users (store w)))))))
  ∧ ((∀ n, countRepr n = numericCounts n ∨ countRepr n = textCounts n) →
     (GET_users_summary req w).2
     = Val (Returned (BUsersSummary
                        (Js.Num (Z.of_nat (length (tbl_users (store w)))))))).
Proof.
  intros Hpre Hc Husers. unfold GET_users_summary, withPreHandler. rewrite Hpre.
  rewrite (usersSummary_resolved req w sid user others Hc Husers). cbn [snd].
  split; [done|]. intros Hrepr.
  destruct (Hrepr (length (tbl_users (store w)))) as [->| ->];
    [by rewrite parseInt_numericCounts|by rewrite parseInt_textCounts].
Qed.

Lemma users_summary_witness :
  let P := platformWith textCounts false in
  (@GET_users_summary P (withCookie "s1") (worldOf [ana; bia] [])).2
  = Val (Returned (BUsersSummary (Js.Num 2))).
Proof.
  exact (proj2 (@users_summary_counts_every_user (platformWith textCounts false)
                  (withCookie "s1") (worldOf [ana; bia] []) "s1" ana []
                  eq_refl eq_refl eq_refl) (λ n, or_intror eq_refl)).
Defined.

(** * Properties of the migration *)

(** X30. The migration can be undone: when [up] succeeds on a [users]
    table, [down] on the result succeeds and gives back the table it started
    from; [up] touches no other column, and it cannot be run twice. *)
Theorem migration_down_undoes_up (users upgraded : gmap string Migration.Column) :
  Migration.up users = Some upgraded →
  Migration.down upgraded = Some users
  ∧ Migration.up upgraded = None
  ∧ upgraded !! "session_id" = Some Migration.sessionIdColumn
  ∧ upgraded !! "created_at" = Some Migration.createdAtColumn
  ∧ ∀ name, name ≠ "session_id" → name ≠ "created_at" →
            upgraded !! name = users !! name.
Proof.
  unfold Migration.up.
  destruct (users !! "session_id") eqn:Hs; [done|].
  destruct (users !! "created_at") eqn:Hc; [done|].
  intros [= <-].
  assert ((<["created_at" := Migration.createdAtColumn]>
             (<["session_id" := Migration.sessionIdColumn]> users)
           : gmap string Migration.Column) !! "session_id"
          = Some Migration.sessionIdColumn) as Hs'.
  { rewrite lookup_insert_ne by done. apply lookup_insert_eq. }
  assert ((<["created_at" := Migration.createdAtColumn]>
             (<["session_id" := Migration.sessionIdColumn]> users)
           : gmap string Migration.Column) !! "created_at"
          = Some Migration.createdAtColumn) as Hc' by apply lookup_insert_eq.
  split; [|split; [|split; [done|split; [done|]]]].
  - unfold Migration.down. rewrite Hs', Hc'. f_equal.
    apply map_eq. intros name.
    destruct (decide (name = "created_at")) as [->|Hn2];
      [by rewrite lookup_delete_eq|].
    rewrite lookup_delete_ne by done.
    destruct (decide (name = "session_id")) as [->|Hn1];
      [by rewrite lookup_delete_eq|].
    rewrite lookup_delete_ne by done. by rewrite !lookup_insert_ne.
  - unfold Migration.up. by rewrite Hs'.
  - intros name Hn1 Hn2. by rewrite !lookup_insert_ne.
Qed.

Lemma migration_witness :
  let users : gmap string Migration.Column :=
    {[ "id" := Migration.mkColumn Migration.Uuid None false None true;
       "height" := Migration.mkColumn Migration.Uuid None false None true ]} in
  let upgraded :=
    <["created_at" := Migration.createdAtColumn]>
      (<["session_id" := Migration.sessionIdColumn]> users) in
  Migration.up users = Some upgraded ∧ Migration.down upgraded = Some users.
Proof.
  intros users upgraded.
  assert (Migration.up users = Some upgraded) as Hup by (vm_compute; reflexivity).
  split; [exact Hup|].
  exact (proj1 (migration_down_undoes_up users upgraded Hup)).
Defined.
